(** * Face-recognition experiment: classifier, session runner, aggregator

    A shallow embedding of the three scripts of the repository

      - [dataset_creation.py]         (module [Classifier])
      - [psychopy_exp.py]             (module [Runner])
      - [result_database_creation.py] (module [Aggregator])

    together with the properties their specification states about them.

    Modelling conventions.
    - Python [str] values are Rocq [string]s, read as byte strings; case
      folding and whitespace are the ASCII ones, so the model speaks about
      ASCII file names and cell values.
    - A Python [set[str]] is a [gset string].
    - A float64 cell holds NaN ([None]) or a number, written as a
      rational ([Q]) that stands for the binary64 number nearest to it:
      the number pandas stores for a decimal text, an infinity for a
      rational beyond the binary64 range.  The arithmetic of the
      outlier fences and of the quartiles is binary64, rounded to
      nearest with ties to even (module [Float64], over [SpecFloat] of
      the Standard Library).  Means of flags and of reaction times are
      kept as exact rationals.
    - Library code (os.path.splitext, re.split, csv.writer, the pandas
      operations) is modelled by the small functions marked as such. *)

From Stdlib Require Import String Ascii List Bool Arith ZArith QArith Qround Lia.
From Stdlib Require Import Sorting.Permutation Sorting.Sorted.
From Stdlib Require Import Floats.SpecFloat.
From stdpp Require Import base decidable gmap strings sorting pretty.
Import ListNotations.

Local Open Scope string_scope.
Local Open Scope list_scope.

(** ** Strings as Python uses them *)

Module PyStr.

Definition is_upper (c : ascii) : bool :=
  (65 <=? nat_of_ascii c)%nat && (nat_of_ascii c <=? 90)%nat.

Definition lower_char (c : ascii) : ascii :=
  if is_upper c then ascii_of_nat (nat_of_ascii c + 32) else c.

(** [str.lower] *)
Fixpoint lower (s : string) : string :=
  match s with
  | EmptyString => EmptyString
  | String c r => String (lower_char c) (lower r)
  end.

(** [str.isspace] on one ASCII character *)
Definition is_space (c : ascii) : bool :=
  let n := nat_of_ascii c in
  ((9 <=? n)%nat && (n <=? 13)%nat) || ((28 <=? n)%nat && (n <=? 32)%nat).

Fixpoint lstrip (s : string) : string :=
  match s with
  | String c r => if is_space c then lstrip r else s
  | EmptyString => EmptyString
  end.

Fixpoint rev_str (s acc : string) : string :=
  match s with
  | EmptyString => acc
  | String c r => rev_str r (String c acc)
  end.

(** [str.strip] *)
Definition strip (s : string) : string :=
  rev_str (lstrip (rev_str (lstrip s) EmptyString)) EmptyString.

(** [x.startswith(p)] *)
Definition startswith (x p : string) : bool := String.prefix p x.

(** [x.endswith(p)] *)
Definition endswith (x p : string) : bool :=
  String.prefix (rev_str p EmptyString) (rev_str x EmptyString).

(** [p in x] for strings: [p] occurs somewhere in [x]. *)
Fixpoint contains (x p : string) : bool :=
  String.prefix p x ||
  match x with
  | EmptyString => false
  | String _ r => contains r p
  end.

End PyStr.

(** ** Outcomes of code that may raise *)

Inductive exn : Type :=
  | FileNotFoundError
  | ValueError
  | IntCastingNaNError.

Inductive result (A : Type) : Type :=
  | Done (a : A)
  | Raised (e : exn).
Arguments Done {A} a.
Arguments Raised {A} e.

Definition bind {A B : Type} (r : result A) (k : A -> result B) : result B :=
  match r with
  | Done a => k a
  | Raised e => Raised e
  end.

Notation "'let!' x ':=' r 'in' k" := (bind r (fun x => k))
  (at level 10, x name, r at level 100, k at level 200).

(** ** dataset_creation.py *)

Module Classifier.

Definition HEADERS : list string := ["filename"; "source"; "gender"; "emotion"].

(** [str.rfind] of one character, -1 when absent *)
Fixpoint rfind_from (c : ascii) (s : string) (i last : Z) : Z :=
  match s with
  | EmptyString => last
  | String d r => rfind_from c r (i + 1) (if Ascii.eqb c d then i else last)
  end.

Definition rfind (c : ascii) (s : string) : Z := rfind_from c s 0 (-1).

Fixpoint has_non_dot (s : string) : bool :=
  match s with
  | EmptyString => false
  | String c r => negb (Ascii.eqb c ".") || has_non_dot r
  end.

(** [os.path.splitext] (posixpath): the extension starts at the last dot
    of the last path component, leading dots not counting. *)
Definition splitext (p : string) : string * string :=
  let sepIndex := rfind "/" p in
  let dotIndex := rfind "." p in
  if (sepIndex <? dotIndex)%Z then
    let filenameIndex := Z.to_nat (sepIndex + 1) in
    let d := Z.to_nat dotIndex in
    if has_non_dot (substring filenameIndex (d - filenameIndex) p)
    then (substring 0 d p, substring d (String.length p - d) p)
    else (p, "")
  else (p, "").

(** The character class [a-z0-9] of TOKEN_SPLIT_RE (negated there). *)
Definition is_token_char (c : ascii) : bool :=
  let n := nat_of_ascii c in
  ((97 <=? n)%nat && (n <=? 122)%nat) || ((48 <=? n)%nat && (n <=? 57)%nat).

(** [TOKEN_SPLIT_RE.split]: the pieces between maximal separator runs,
    empty pieces at the ends included. *)
Fixpoint split_aux (s cur : string) (in_sep : bool) : list string :=
  match s with
  | EmptyString => [cur]
  | String c r =>
      if is_token_char c then split_aux r (cur +:+ String c EmptyString) false
      else if in_sep then split_aux r cur true
      else cur :: split_aux r EmptyString true
  end.

Definition TOKEN_SPLIT_RE_split (s : string) : list string :=
  split_aux s EmptyString false.

Definition nonempty (t : string) : bool :=
  match t with EmptyString => false | _ => true end.

Definition tokens_from_filename (filename : string) : gset string :=
  let base := PyStr.lower (fst (splitext filename)) in
  list_to_set (filter (fun t => nonempty t = true) (TOKEN_SPLIT_RE_split base)).

Definition classify_source (toks : gset string) : string :=
  if bool_decide ("ai" ∈ toks) then "ai" else "non-ai".

(** [any(t.startswith(p) for t in toks)] *)
Definition any_startswith (p : string) (toks : gset string) : bool :=
  existsb (fun t => PyStr.startswith t p) (elements toks).

Definition classify_gender (toks : gset string) : string :=
  if bool_decide ("man" ∈ toks) then "male"
  else if bool_decide ("woman" ∈ toks) then "female"
  else if any_startswith "man" toks then "male"
  else if any_startswith "woman" toks then "female"
  else "unknown".

Definition classify_emotion (toks : gset string) : string :=
  if bool_decide ("happy" ∈ toks) || bool_decide ("smiling" ∈ toks) then "happy"
  else if bool_decide ("sad" ∈ toks) then "sad"
  else "unknown".

(** [sorted] on a list of [str]: ascending, by character code. *)
Fixpoint insert_sorted (x : string) (l : list string) : list string :=
  match l with
  | [] => [x]
  | y :: r => if String.leb x y then x :: l else y :: insert_sorted x r
  end.

Fixpoint sorted (l : list string) : list string :=
  match l with
  | [] => []
  | x :: r => insert_sorted x (sorted r)
  end.

(** [filename.lower().endswith((".jpg", ".jpeg", ".png"))] *)
Definition is_image (filename : string) : bool :=
  let f := PyStr.lower filename in
  PyStr.endswith f ".jpg" || PyStr.endswith f ".jpeg" || PyStr.endswith f ".png".

Definition manifest_row (filename : string) : list string :=
  let toks := tokens_from_filename filename in
  [filename; classify_source toks; classify_gender toks; classify_emotion toks].

Definition manifest_rows (listing : list string) : list (list string) :=
  map manifest_row (filter (fun f => is_image f = true) (sorted listing)).

(** [csv.writer] with the default dialect: comma separated, minimal
    quoting with the quote character doubled, lines ended by CR LF. *)
Definition dquote : ascii := "034"%char.

Definition needs_quote (c : ascii) : bool :=
  Ascii.eqb c "," || Ascii.eqb c dquote || Ascii.eqb c "013" || Ascii.eqb c "010".

Fixpoint any_char (p : ascii -> bool) (s : string) : bool :=
  match s with
  | EmptyString => false
  | String c r => p c || any_char p r
  end.

Fixpoint double_quotes (s : string) : string :=
  match s with
  | EmptyString => EmptyString
  | String c r =>
      if Ascii.eqb c dquote then String c (String c (double_quotes r))
      else String c (double_quotes r)
  end.

Definition csv_field (s : string) : string :=
  if any_char needs_quote s
  then String dquote (double_quotes s) +:+ String dquote EmptyString
  else s.

Definition crlf : string := String "013" (String "010" EmptyString).

Definition writerow (fields : list string) : string :=
  String.concat "," (map csv_field fields) +:+ crlf.

Definition write_csv (rows : list (list string)) : string :=
  String.concat "" (map writerow rows).

(** [main]: [listing] is what [os.listdir(IMAGE_FOLDER)] returns, in
    whatever order, or [None] when the folder does not exist.  The
    result is the text written to OUTPUT_CSV. *)
Definition main (listing : option (list string)) : result string :=
  match listing with
  | None => Raised FileNotFoundError
  | Some names => Done (write_csv (HEADERS :: manifest_rows names))
  end.

End Classifier.

(** ** psychopy_exp.py: the trial loop of [main] *)

Module Runner.

Definition KEY_HAPPY : string := "right".
Definition KEY_SAD : string := "left".
Definition QUIT_KEYS : list string := ["escape"].

(** Values passed to [addData]. *)
Inductive value : Type :=
  | VStr (s : string)
  | VBool (b : bool)
  | VInt (n : Z)
  | VFloat (t : Q).

(** The ExperimentHandler: the entries closed so far and the one being
    filled.  [addData] sets a field of the current entry, [nextEntry]
    closes it. *)
Record handler : Type := {
  entries : list (gmap string value);
  thisEntry : gmap string value
}.

Definition addData (k : string) (v : value) (h : handler) : handler :=
  {| entries := entries h; thisEntry := <[k := v]> (thisEntry h) |}.

Definition nextEntry (h : handler) : handler :=
  {| entries := entries h ++ [thisEntry h]; thisEntry := ∅ |}.

(** What the outside world does during one trial. *)
Record trial_env : Type := {
  quit_pressed : bool;                  (* event.getKeys(keyList=QUIT_KEYS) is non-empty *)
  file_exists : bool;                   (* os.path.isfile(img_path) *)
  keys : option (list (string * Q))     (* event.waitKeys(maxWait=MAX_RESP_TIME, ...) *)
}.

Inductive control : Type := Continue | Break.

(** [row.get(k, "")] *)
Definition get (row : gmap string string) (k : string) : string :=
  default "" (row !! k).

Definition in_list (k : string) (l : list string) : bool :=
  existsb (String.eqb k) l.

(** The response part of a trial: [(resp_key, rt, correct)], or [None]
    when a quit key ends the loop. *)
Definition response (correct_emotion : string) (keys : option (list (string * Q)))
  : option (value * value * value) :=
  match keys with
  | Some ((key, t) :: _) =>
      if in_list key QUIT_KEYS then None
      else
        let resp_key := key in
        let rt := VFloat t in
        let correct :=
          if String.eqb correct_emotion "happy" then VBool (String.eqb resp_key KEY_HAPPY)
          else if String.eqb correct_emotion "sad" then VBool (String.eqb resp_key KEY_SAD)
          else VStr "" in
        Some (VStr resp_key, rt, correct)
  | Some [] | None =>
      (* No response within MAX_RESP_TIME *)
      Some (VStr "", VStr "", VBool false)
  end.

(** One iteration of the trial loop. *)
Definition trial (t_idx : Z) (row : gmap string string) (env : trial_env) (h : handler)
  : handler * control :=
  if quit_pressed env then (h, Break)
  else
    let filename := get row "filename" in
    if negb (file_exists env) then
      let h := addData "trial_index" (VInt t_idx) h in
      let h := addData "filename" (VStr filename) h in
      let h := addData "missing_file" (VBool true) h in
      let h := addData "resp_key" (VStr "") h in
      let h := addData "rt" (VStr "") h in
      let h := addData "correct" (VStr "") h in
      (nextEntry h, Continue)
    else
      let correct_emotion := PyStr.lower (PyStr.strip (get row "emotion")) in
      match response correct_emotion (keys env) with
      | None => (h, Break)
      | Some (resp_key, rt, correct) =>
          let h := addData "trial_index" (VInt t_idx) h in
          let h := addData "filename" (VStr filename) h in
          let h := addData "source" (VStr (get row "source")) h in
          let h := addData "gender" (VStr (get row "gender")) h in
          let h := addData "emotion" (VStr correct_emotion) h in
          let h := addData "resp_key" resp_key h in
          let h := addData "rt" rt h in
          let h := addData "correct" correct h in
          let h := addData "missing_file" (VBool false) h in
          (nextEntry h, Continue)
      end.

(** [for t_idx, row in enumerate(trials_rows, start=1)] *)
Fixpoint trial_loop (t_idx : Z) (rows : list (gmap string string))
    (envs : list trial_env) (h : handler) : handler :=
  match rows, envs with
  | row :: rows', env :: envs' =>
      match trial t_idx row env h with
      | (h', Continue) => trial_loop (t_idx + 1) rows' envs' h'
      | (h', Break) => h'
      end
  | _, _ => h
  end.

(** [load_trials_from_csv]: [conditions] is what
    [data.importConditions(csv_path)] returns, [None] when the file does
    not exist.  A kept row gets its emotion replaced by the normalised
    one. *)
Definition usable_row (row : gmap string string) : option (gmap string string) :=
  let emo := PyStr.lower (PyStr.strip (get row "emotion")) in
  if in_list emo ["happy"; "sad"] then Some (<["emotion" := emo]> row) else None.

Definition load_trials_from_csv (conditions : option (list (gmap string string)))
  : result (list (gmap string string)) :=
  match conditions with
  | None => Raised FileNotFoundError
  | Some all =>
      match omap usable_row all with
      | [] => Raised ValueError
      | rows => Done rows
      end
  end.

(** [ch.isalnum() or ch in ("-", "_")] on one ASCII character *)
Definition is_alnum (c : ascii) : bool :=
  let n := nat_of_ascii c in
  ((48 <=? n)%nat && (n <=? 57)%nat) || ((65 <=? n)%nat && (n <=? 90)%nat)
  || ((97 <=? n)%nat && (n <=? 122)%nat).

Definition safe_char (c : ascii) : bool :=
  is_alnum c || Ascii.eqb c "-" || Ascii.eqb c "_".

Fixpoint keep_safe (s : string) : string :=
  match s with
  | EmptyString => EmptyString
  | String c r => if safe_char c then String c (keep_safe r) else keep_safe r
  end.

(** ["".join(ch for ch in s if ...) or default] *)
Definition safe_name (s default : string) : string :=
  match keep_safe s with
  | EmptyString => default
  | kept => kept
  end.

(** [os.path.join] of two components (posixpath) *)
Definition path_join (a b : string) : string :=
  if PyStr.startswith b "/" then b
  else match a with
       | EmptyString => b
       | _ => if PyStr.endswith a "/" then a +:+ b else a +:+ "/" +:+ b
       end.

(** [ensure_results_path], the directories it creates left aside:
    [results_dir] is RESULTS_DIR and [run_stamp] the formatted time. *)
Definition ensure_results_path (results_dir run_stamp participant session : string) : string :=
  let safe_participant := safe_name participant "anon" in
  let safe_session := safe_name session "001" in
  let run_dir :=
    path_join (path_join (path_join results_dir ("sub-" +:+ safe_participant))
                 ("ses-" +:+ safe_session)) run_stamp in
  path_join run_dir
    ("sub-" +:+ safe_participant +:+ "_ses-" +:+ safe_session +:+ "_" +:+ run_stamp).

Definition N_TRIALS : nat := 79.

(** The trial selection of [main]: [shuffled] is [all_rows] after
    [random.shuffle]. *)
Definition select_trials (shuffled : list (gmap string string))
  : result (list (gmap string string)) :=
  if (length shuffled <? N_TRIALS)%nat then Raised ValueError
  else Done (take N_TRIALS shuffled).

Section Random.
(** [random.choice] on a pool and the outcome of [random.shuffle]. *)
Variable choice : list (gmap string string) -> gmap string string.
Variable shuffle : list (gmap string string) -> list (gmap string string).

Definition match_rows (all_rows : list (gmap string string)) (emo src : string)
  : list (gmap string string) :=
  filter (fun r => r !! "emotion" = Some emo /\ PyStr.lower (get r "source") = src) all_rows.

Definition targets : list (string * string) :=
  [("happy", "ai"); ("happy", "non-ai"); ("sad", "ai"); ("sad", "non-ai")].

Definition pick_practice_examples (all_rows : list (gmap string string))
  : list (gmap string string) :=
  let practice :=
    flat_map (fun t => match match_rows all_rows (fst t) (snd t) with
                       | [] => []
                       | pool => [choice pool]
                       end) targets in
  let practice :=
    if (length practice <? 4)%nat then
      let remaining := filter (fun r => r ∉ practice) all_rows in
      practice ++ take (4 - length practice) (shuffle remaining)
    else practice in
  take 4 practice.

End Random.

End Runner.

(** ** binary64 arithmetic

    Python's [float] and numpy's [float64]: IEEE 754 binary64 with
    rounding to nearest, ties to even. *)

Module Float64.

Definition prec : Z := 53.
Definition emax : Z := 1024.

(** The binary64 number nearest to a rational (the rational itself when
    it is a binary64 number); an infinity beyond the largest float. *)
Definition of_Q (x : Q) : spec_float :=
  match Qnum x with
  | Z0 => S754_zero false
  | Zpos n => SFdiv prec emax (S754_finite false n 0) (S754_finite false (Qden x) 0)
  | Zneg n => SFdiv prec emax (S754_finite true n 0) (S754_finite false (Qden x) 0)
  end.

Definition add (x y : spec_float) : spec_float := SFadd prec emax x y.
Definition sub (x y : spec_float) : spec_float := SFsub prec emax x y.
Definition mul (x y : spec_float) : spec_float := SFmul prec emax x y.

(** [x < y] and [x <= y]; false when one side is NaN. *)
Definition ltb (x y : spec_float) : bool := SFltb x y.
Definition leb (x y : spec_float) : bool := SFleb x y.

End Float64.

(** ** The pandas operations the aggregator uses *)

Module Pandas.

(** An element of an object column. *)
Inductive obj : Type :=
  | ONaN
  | OBool (b : bool)
  | ONum (x : Q)
  | OStr (s : string).

(** A column with its dtype: bool, int64, float64 (NaN is [None]) or
    object. *)
Inductive series : Type :=
  | BoolS (l : list bool)
  | IntS (l : list Z)
  | FloatS (l : list (option Q))
  | ObjS (l : list obj).

(** A DataFrame: its columns, in order. *)
Abbreviation frame := (list (string * series)).

(** What Python and pandas do with the text of numbers: the numeric
    parser of [pd.to_numeric] ([None] when the text is not a number)
    and [str] on floats and ints. *)
Record numtext : Type := {
  parse_num : string -> option Q;
  str_float : Q -> string;
  str_int : Z -> string
}.

Definition Qltb (x y : Q) : bool := negb (Qle_bool y x).

Definition Q_of_bool (b : bool) : Q := if b then 1%Q else 0%Q.

Definition columns (df : frame) : list string := map fst df.

(** [c in df.columns] *)
Definition has_col (c : string) (df : frame) : bool :=
  existsb (String.eqb c) (columns df).

(** [df[c]] *)
Fixpoint get_col (c : string) (df : frame) : option series :=
  match df with
  | [] => None
  | (c', s) :: r => if String.eqb c c' then Some s else get_col c r
  end.

(** [df[c] = s]: replace the column in place, or add it at the end. *)
Fixpoint set_col (c : string) (s : series) (df : frame) : frame :=
  match df with
  | [] => [(c, s)]
  | (c', s') :: r => if String.eqb c c' then (c, s) :: r else (c', s') :: set_col c s r
  end.

(** [df.drop(columns=cs)] *)
Definition drop (cs : list string) (df : frame) : frame :=
  filter (fun cs' => existsb (String.eqb (fst cs')) cs = false) df.

(** [l[mask]] *)
Fixpoint select {A : Type} (mask : list bool) (l : list A) : list A :=
  match mask, l with
  | b :: m, x :: r => if b then x :: select m r else select m r
  | _, _ => []
  end.

Definition series_select (mask : list bool) (s : series) : series :=
  match s with
  | BoolS l => BoolS (select mask l)
  | IntS l => IntS (select mask l)
  | FloatS l => FloatS (select mask l)
  | ObjS l => ObjS (select mask l)
  end.

(** [df[mask]], [df.loc[mask]] *)
Definition frame_select (mask : list bool) (df : frame) : frame :=
  map (fun cs => (fst cs, series_select mask (snd cs))) df.

Definition series_len (s : series) : nat :=
  match s with
  | BoolS l => length l
  | IntS l => length l
  | FloatS l => length l
  | ObjS l => length l
  end.

(** [s.isna()] on a float column *)
Definition isna (l : list (option Q)) : list bool :=
  map (fun o => match o with None => true | Some _ => false end) l.

(** [s.dropna()] on a float column *)
Definition dropna (l : list (option Q)) : list Q := omap id l.

(** [s.unique()] on float values, first occurrences kept *)
Fixpoint unique_Q (l : list Q) : list Q :=
  match l with
  | [] => []
  | x :: r => x :: filter (fun y => Qeq_bool x y = false) (unique_Q r)
  end.

Definition Qsum (l : list Q) : Q := fold_right Qplus 0%Q l.

(** [s.mean()], NaN skipped; NaN for an empty column *)
Definition mean (l : list (option Q)) : option Q :=
  match dropna l with
  | [] => None
  | v => Some (Qsum v / inject_Z (Z.of_nat (length v)))%Q
  end.

(** [s.mean()] of a bool column *)
Definition mean_bool (l : list bool) : option Q :=
  mean (map (fun b => Some (Q_of_bool b)) l).

Fixpoint insert_Q (x : Q) (l : list Q) : list Q :=
  match l with
  | [] => [x]
  | y :: r => if Qle_bool x y then x :: l else y :: insert_Q x r
  end.

Fixpoint sort_Q (l : list Q) : list Q :=
  match l with
  | [] => []
  | x :: r => insert_Q x (sort_Q r)
  end.

(** numpy's [_lerp(a, b, t)]: [a + (b - a) * t], replaced by
    [b - (b - a) * (1 - t)] where [t >= 0.5]. *)
Definition lerp (a b t : spec_float) : spec_float :=
  let diff_b_a := Float64.sub b a in
  if Float64.leb (Float64.of_Q (1 # 2)) t
  then Float64.sub b (Float64.mul diff_b_a (Float64.sub (Float64.of_Q 1) t))
  else Float64.add a (Float64.mul diff_b_a t).

(** [s.quantile(q)] with the default linear interpolation, on a
    column without NaN, as [np.percentile] computes it: the virtual
    index [(n-1)q] in the sorted values, its two neighbours and the
    weight [gamma] between them.  For the two calls of the script
    ([q] 0.25 and 0.75) the virtual index and [gamma] are multiples of
    1/4, which binary64 holds exactly; the interpolation rounds. *)
Definition quantile (l : list Q) (q : Q) : spec_float :=
  let s := sort_Q l in
  let virtual_index := (inject_Z (Z.of_nat (length l) - 1) * q)%Q in
  let previous_index := Qfloor virtual_index in
  let gamma := (virtual_index - inject_Z previous_index)%Q in
  let previous := nth (Z.to_nat previous_index) s 0%Q in
  let next := nth (Z.to_nat previous_index + 1) s previous in
  lerp (Float64.of_Q previous) (Float64.of_Q next) (Float64.of_Q gamma).

Section NumText.
Variable T : numtext.

(** [pd.to_numeric(s, errors="coerce")], as float values; pandas keeps
    an int64 or bool dtype where it can, which changes none of the
    comparisons made below. *)
Definition to_numeric (s : series) : list (option Q) :=
  match s with
  | BoolS l => map (fun b => Some (Q_of_bool b)) l
  | IntS l => map (fun n => Some (inject_Z n)) l
  | FloatS l => l
  | ObjS l =>
      map (fun o => match o with
                    | ONaN => None
                    | OBool b => Some (Q_of_bool b)
                    | ONum x => Some x
                    | OStr s => parse_num T s
                    end) l
  end.

Definition str_bool (b : bool) : string := if b then "True" else "False".

(** [s.astype(str)]: a missing value becomes the text nan. *)
Definition astype_str (s : series) : list string :=
  match s with
  | BoolS l => map str_bool l
  | IntS l => map (str_int T) l
  | FloatS l => map (fun o => match o with Some x => str_float T x | None => "nan" end) l
  | ObjS l =>
      map (fun o => match o with
                    | ONaN => "nan"
                    | OBool b => str_bool b
                    | ONum x => str_float T x
                    | OStr s => s
                    end) l
  end.

(** [s.dropna().astype(str)] *)
Definition dropna_astype_str (s : series) : list string :=
  match s with
  | BoolS l => map str_bool l
  | IntS l => map (str_int T) l
  | FloatS l => map (str_float T) (dropna l)
  | ObjS l =>
      omap (fun o => match o with
                     | ONaN => None
                     | OBool b => Some (str_bool b)
                     | ONum x => Some (str_float T x)
                     | OStr s => Some s
                     end) l
  end.

End NumText.

Definition Qtrunc (x : Q) : Z :=
  if Qle_bool 0 x then Qfloor x else Qceiling x.

(** [s.astype(int)] on a float column: raises when a value is NaN. *)
Definition astype_int (l : list (option Q)) : result (list Z) :=
  if forallb (fun o => match o with Some _ => true | None => false end) l
  then Done (map Qtrunc (dropna l))
  else Raised IntCastingNaNError.

(** [s.astype(bool)] on an int column *)
Definition astype_bool (l : list Z) : list bool :=
  map (fun n => negb (n =? 0)%Z) l.

Definition is_object (s : series) : bool :=
  match s with ObjS _ => true | _ => false end.

End Pandas.

(** ** result_database_creation.py *)

Module Aggregator.
Import Pandas.

Definition results_folder : string := "../1. Raw Data".

Definition cols_to_remove : list string :=
  ["thisRow.t"; "notes"; "resp_key"; "missing_file"; "participant"; "session"].

Definition db_candidates : list string :=
  ["database"; "db"; "source"; "stim_database"; "face_database"; "set"; "dataset"].
Definition emo_candidates : list string :=
  ["emotion"; "expression"; "valence"; "mood"; "affect"].
Definition corr_candidates : list string :=
  ["correct"; "corr"; "accuracy"; "resp_corr"; "response_corr"; "key_resp.corr";
   "resp.corr"; "trial_corr"].

(** [_lower], on a value that is already text *)
Definition _lower (s : string) : string := PyStr.lower (PyStr.strip s).

(** [{c.lower(): c for c in df.columns}]: a later column wins. *)
Definition cols_lower (df : frame) : gmap string string :=
  fold_left (fun m c => <[PyStr.lower c := c]> m) (columns df) ∅.

Fixpoint pick_from (m : gmap string string) (candidates : list string) : option string :=
  match candidates with
  | [] => None
  | cand :: r =>
      match m !! PyStr.lower cand with
      | Some c => Some c
      | None => pick_from m r
      end
  end.

Definition pick_column (df : frame) (candidates : list string) : option string :=
  pick_from (cols_lower df) candidates.

Definition any_contains (p : string) (vals : list string) : bool :=
  existsb (fun v => PyStr.contains v p) vals.

Definition normalize_database (x : string) : option string :=
  if PyStr.contains x "non-ai" || PyStr.contains x "nonai"
     || PyStr.contains x "real" || PyStr.contains x "human" then Some "non-ai"
  else if PyStr.contains x "ai" then Some "ai"
  else None.

Definition normalize_emotion (x : string) : option string :=
  if PyStr.contains x "sad" then Some "sad"
  else if PyStr.contains x "happy" then Some "happy"
  else None.

(** The flag column [rt_outlier], from the numeric [rt] column. *)
Definition rt_outlier (rt : list (option Q)) : list bool :=
  let missing_rt := isna rt in
  let valid_rt := dropna (select (map negb missing_rt) rt) in
  let iqr_outliers :=
    if (4 <=? length valid_rt)%nat then
      let Q1 := quantile valid_rt (1 # 4) in
      let Q3 := quantile valid_rt (3 # 4) in
      let IQR := Float64.sub Q3 Q1 in
      let lower_bound := Float64.sub Q1 (Float64.mul (Float64.of_Q (3 # 2)) IQR) in
      let upper_bound := Float64.add Q3 (Float64.mul (Float64.of_Q (3 # 2)) IQR) in
      map (fun o => match o with
                    | Some x => Float64.ltb (Float64.of_Q x) lower_bound
                                || Float64.ltb upper_bound (Float64.of_Q x)
                    | None => false
                    end) rt
    else map (fun _ => false) rt in
  map (fun p => orb (fst p) (snd p)) (combine missing_rt iqr_outliers).

(** [100 * df["rt_outlier"].mean()] *)
Definition outlier_pct (flags : list bool) : option Q :=
  option_map (Qmult 100) (mean_bool flags).

(** [outlier_pct > 10]; a comparison with NaN is false. *)
Definition too_many (pct : option Q) : bool :=
  match pct with
  | Some p => Qltb 10 p
  | None => false
  end.

Record summary_row : Type := {
  database_name : string;
  ai_sad_avg_rt : option Q;
  ai_sad_accuracy_pct : option Q;
  ai_happy_avg_rt : option Q;
  ai_happy_accuracy_pct : option Q;
  non_ai_sad_avg_rt : option Q;
  non_ai_sad_accuracy_pct : option Q;
  non_ai_happy_avg_rt : option Q;
  non_ai_happy_accuracy_pct : option Q
}.

(** What the loop body does with one file: it ends in [continue], or
    reaches the end with a summary row and the frame to write back. *)
Inductive file_outcome : Type :=
  | Skipped
  | Processed (cleaned : frame) (row : summary_row).

Section NumText.
Variable T : numtext.

Definition infer_condition_columns (df : frame) : option string * option string :=
  let obj_cols := filter (fun cs => is_object (snd cs) = true) df in
  fold_left
    (fun acc cs =>
       let '(database_col, emotion_col) := acc in
       let vals := remove_dups (map _lower (dropna_astype_str T (snd cs))) in
       let database_col :=
         match database_col with
         | None =>
             if any_contains "ai" vals
                && existsb (fun v => PyStr.contains v "non-ai" || PyStr.contains v "nonai") vals
             then Some (fst cs) else None
         | Some c => Some c
         end in
       let emotion_col :=
         match emotion_col with
         | None =>
             if any_contains "happy" vals && any_contains "sad" vals
             then Some (fst cs) else None
         | Some c => Some c
         end in
       (database_col, emotion_col))
    obj_cols (None, None).

Definition is_0_or_1 (x : Q) : bool := Qeq_bool x 0 || Qeq_bool x 1.

Definition notna (o : option Q) : bool :=
  match o with Some _ => true | None => false end.

Definition coerce_correct_series (s : option series) : result (option (list bool)) :=
  match s with
  | None => Done None
  | Some (BoolS l) => Done (Some l)
  | Some s =>
      (* numeric 0/1 *)
      let s_num := to_numeric T s in
      if existsb notna s_num && forallb is_0_or_1 (unique_Q (dropna s_num)) then
        let! ints := astype_int s_num in
        Done (Some (astype_bool ints))
      else
        (* strings like 'true'/'false' *)
        let s_str := map _lower (astype_str T s) in
        if forallb (fun v => String.eqb v "true" || String.eqb v "false") (remove_dups s_str)
        then Done (Some (map (fun v => String.eqb v "true") s_str))
        else Done None
  end.

(** The block guarded by [if "rt" in df.columns]: [None] when the file
    is skipped, else the frame without the flagged rows. *)
Definition remove_rt_outliers (df : frame) : option frame :=
  match get_col "rt" df with
  | Some s =>
      let rt := to_numeric T s in
      let df := set_col "rt" (FloatS rt) df in
      let df := set_col "rt_outlier" (BoolS (map (fun _ => false) rt)) df in
      let flags := rt_outlier rt in
      let df := set_col "rt_outlier" (BoolS flags) df in
      if too_many (outlier_pct flags) then None
      else
        let df := frame_select (map negb flags) df in
        Some (drop ["rt_outlier"] df)
  | None => Some df
  end.

Definition eq_label (label : string) (o : option string) : bool :=
  match o with
  | Some v => String.eqb v label
  | None => false
  end.

Definition compute_metrics (df : frame) (db_cat emo_cat : list (option string))
    (correct_bool : option (list bool)) (db_label emo_label : string)
  : option Q * option Q :=
  let mask := map (fun p => eq_label db_label (fst p) && eq_label emo_label (snd p))
                  (combine db_cat emo_cat) in
  let sub := frame_select mask df in
  let avg_rt :=
    match get_col "rt" sub with
    | Some s => mean (to_numeric T s)
    | None => None
    end in
  let acc :=
    match correct_bool with
    | Some cb => option_map (Qmult 100) (mean_bool (select mask cb))
    | None => None
    end in
  (avg_rt, acc).

Definition nan_row (name : string) : summary_row :=
  {| database_name := name;
     ai_sad_avg_rt := None; ai_sad_accuracy_pct := None;
     ai_happy_avg_rt := None; ai_happy_accuracy_pct := None;
     non_ai_sad_avg_rt := None; non_ai_sad_accuracy_pct := None;
     non_ai_happy_avg_rt := None; non_ai_happy_accuracy_pct := None |}.

Definition orelse {A : Type} (a b : option A) : option A :=
  match a with Some _ => a | None => b end.

(** [pick_column] for both condition columns, then the inference
    from the values when one of them was not found. *)
Definition condition_columns (df : frame) : option string * option string :=
  let database_col := pick_column df db_candidates in
  let emotion_col := pick_column df emo_candidates in
  match database_col, emotion_col with
  | Some _, Some _ => (database_col, emotion_col)
  | _, _ =>
      let '(inf_db, inf_emo) := infer_condition_columns df in
      (orelse database_col inf_db, orelse emotion_col inf_emo)
  end.

(** "Coerce RT to numeric if present" *)
Definition numeric_rt (df : frame) : frame :=
  match get_col "rt" df with
  | Some s => set_col "rt" (FloatS (to_numeric T s)) df
  | None => df
  end.

(** "Coerce correctness if present" *)
Definition correct_bool_of (df : frame) : result (option (list bool)) :=
  match pick_column df corr_candidates with
  | Some c => coerce_correct_series (get_col c (numeric_rt df))
  | None => Done None
  end.

(** [df[col].astype(str).map(_lower)] *)
Definition raw_values (df : frame) (col : string) : list string :=
  match get_col col df with
  | Some s => map _lower (astype_str T s)
  | None => []
  end.

(** The part of the loop body from "Build per-file summary row" on:
    the frame to write back and the row to append. *)
Definition summarise (filename : string) (df0 : frame) : result (frame * summary_row) :=
  let name := fst (Classifier.splitext filename) in
  let cols := condition_columns df0 in
  let df := numeric_rt df0 in
  let! correct_bool := correct_bool_of df0 in
  match cols with
  | (Some database_col, Some emotion_col) =>
      let db_cat := map normalize_database (raw_values df database_col) in
      let emo_cat := map normalize_emotion (raw_values df emotion_col) in
      let m := compute_metrics df db_cat emo_cat correct_bool in
      Done (df,
            {| database_name := name;
               ai_sad_avg_rt := fst (m "ai" "sad");
               ai_sad_accuracy_pct := snd (m "ai" "sad");
               ai_happy_avg_rt := fst (m "ai" "happy");
               ai_happy_accuracy_pct := snd (m "ai" "happy");
               non_ai_sad_avg_rt := fst (m "non-ai" "sad");
               non_ai_sad_accuracy_pct := snd (m "non-ai" "sad");
               non_ai_happy_avg_rt := fst (m "non-ai" "happy");
               non_ai_happy_accuracy_pct := snd (m "non-ai" "happy") |})
  | _ => Done (df, nan_row name)
  end.

(** The two column-dropping steps at the top of the loop body. *)
Definition prune (df : frame) : frame :=
  let df := drop (filter (fun c => has_col c df) cols_to_remove) df in
  filter (fun cs => negb (PyStr.startswith (fst cs) "Unnamed")) df.

(** The loop body for one CSV file, [df] being what [pd.read_csv]
    returned for it. *)
Definition process_file (filename : string) (df : frame) : result file_outcome :=
  match remove_rt_outliers (prune df) with
  | None => Done Skipped
  | Some df =>
      let! r := summarise filename df in
      Done (Processed (fst r) (snd r))
  end.

(** The state the loop threads: the rows collected in [summary_rows]
    and the files written so far, oldest first. *)
Record state : Type := {
  summary_rows : list summary_row;
  written : list (string * frame)
}.

Definition initial : state := {| summary_rows := []; written := [] |}.

Definition file_path (filename : string) : string :=
  results_folder +:+ "/" +:+ filename.

(** [for filename in os.listdir(results_folder)]: [files] pairs each
    listed name with its parsed contents.  An exception ends the run. *)
Fixpoint batch (files : list (string * frame)) (st : state) : result state :=
  match files with
  | [] => Done st
  | (filename, df) :: rest =>
      if PyStr.endswith filename ".csv" then
        let! o := process_file filename df in
        match o with
        | Skipped => batch rest st
        | Processed cleaned row =>
            batch rest {| summary_rows := summary_rows st ++ [row];
                          written := written st ++ [(file_path filename, cleaned)] |}
        end
      else batch rest st
  end.

(** The whole script: the cleaned files written, and the summary
    table when there is at least one row. *)
Definition script (files : list (string * frame))
  : result (list (string * frame) * option (list summary_row)) :=
  let! st := batch files initial in
  Done (written st,
        match summary_rows st with
        | [] => None
        | rows => Some rows
        end).

End NumText.

End Aggregator.

(** * Vocabulary of the statements *)

(** [p] occurs in [x]; [x] starts with [p]. *)
Definition occurs (p x : string) : Prop := exists a b, x = a +:+ p +:+ b.
Definition starts (p x : string) : Prop := exists r, x = p +:+ r.

(** [x] ends with [p]. *)
Definition ends (p x : string) : Prop := exists a, x = a +:+ p.

(** A name that ends in .jpg, .jpeg or .png, in any letter case. *)
Definition image_name (f : string) : Prop :=
  exists stem ext, f = stem +:+ ext /\
    (PyStr.lower ext = ".jpg" \/ PyStr.lower ext = ".jpeg" \/ PyStr.lower ext = ".png").

(** The order [sorted] uses on file names: by character code. *)
Definition name_le (a b : string) : Prop := String.leb a b = true.

(** The value at position [pos] of the ascending values [s], between
    its two neighbours: the quartiles are the values at positions
    [(n-1)/4] and [3(n-1)/4]. *)
Definition value_at (s : list Q) (pos : Q) : spec_float :=
  let k := Z.to_nat (Qfloor pos) in
  let a := nth k s 0%Q in
  Pandas.lerp (Float64.of_Q a) (Float64.of_Q (nth (k + 1) s a))
    (Float64.of_Q (pos - inject_Z (Qfloor pos))).

(** The fences of the IQR test over the valid reaction times, in the
    arithmetic of the script. *)
Definition lower_fence (valid : list Q) : spec_float :=
  let Q1 := Pandas.quantile valid (1 # 4) in
  let Q3 := Pandas.quantile valid (3 # 4) in
  let IQR := Float64.sub Q3 Q1 in
  Float64.sub Q1 (Float64.mul (Float64.of_Q (3 # 2)) IQR).
Definition upper_fence (valid : list Q) : spec_float :=
  let Q1 := Pandas.quantile valid (1 # 4) in
  let Q3 := Pandas.quantile valid (3 # 4) in
  let IQR := Float64.sub Q3 Q1 in
  Float64.add Q3 (Float64.mul (Float64.of_Q (3 # 2)) IQR).

(** A reaction time falls below, or above, a fence. *)
Definition below (x : Q) (fence : spec_float) : Prop :=
  Float64.ltb (Float64.of_Q x) fence = true.
Definition above (x : Q) (fence : spec_float) : Prop :=
  Float64.ltb fence (Float64.of_Q x) = true.

(** The flag of one row, given the valid reaction times of the file. *)
Definition flag_of (valid : list Q) (o : option Q) : bool :=
  match o with
  | None => true
  | Some x =>
      if (4 <=? length valid)%nat
      then Float64.ltb (Float64.of_Q x) (lower_fence valid)
           || Float64.ltb (upper_fence valid) (Float64.of_Q x)
      else false
  end.

(** The outlier rate of a pruned frame exceeds the threshold. *)
Definition exceeds_threshold (T : Pandas.numtext) (df : Pandas.frame) : bool :=
  match Pandas.get_col "rt" df with
  | Some s => Aggregator.too_many
                (Aggregator.outlier_pct (Aggregator.rt_outlier (Pandas.to_numeric T s)))
  | None => false
  end.

(** An instance of the number texts to run examples with: it reads
    unsigned integer literals and prints whole numbers. *)
Definition digit (c : ascii) : option Z :=
  let n := nat_of_ascii c in
  if (48 <=? n)%nat && (n <=? 57)%nat then Some (Z.of_nat (n - 48)) else None.

Fixpoint parse_digits (s : string) (acc : Z) : option Z :=
  match s with
  | EmptyString => Some acc
  | String c r =>
      match digit c with
      | Some d => parse_digits r (10 * acc + d)
      | None => None
      end
  end.

Definition plain_text : Pandas.numtext :=
  {| Pandas.parse_num := fun s =>
       match s with
       | EmptyString => None
       | _ => option_map inject_Z (parse_digits s 0)
       end;
     Pandas.str_float := fun x => pretty (Qfloor x) +:+ ".0";
     Pandas.str_int := fun n => pretty n |}.

(** Example session files. *)

(** Two trials, one of them without a reaction time: half of the rows
    are flagged. *)
Definition half_missing : Pandas.frame :=
  [("source", Pandas.ObjS [Pandas.OStr "ai"; Pandas.OStr "non-ai"]);
   ("emotion", Pandas.ObjS [Pandas.OStr "happy"; Pandas.OStr "sad"]);
   ("rt", Pandas.FloatS [Some (1 # 2); None]);
   ("correct", Pandas.BoolS [true; false])].

(** No reaction-time column; the correctness column holds 1, 0 and an
    empty cell, which [pd.read_csv] reads as the floats 1.0, 0.0, NaN. *)
Definition no_rt_blank_correct : Pandas.frame :=
  [("source", Pandas.ObjS [Pandas.OStr "ai"; Pandas.OStr "non-ai"; Pandas.OStr "ai"]);
   ("emotion", Pandas.ObjS [Pandas.OStr "happy"; Pandas.OStr "sad"; Pandas.OStr "sad"]);
   ("correct", Pandas.FloatS [Some 1%Q; Some 0%Q; None])].

(** No reaction-time column and no column that names or holds the
    conditions. *)
Definition no_rt_no_conditions : Pandas.frame :=
  [("trial_index", Pandas.IntS [1%Z; 2%Z]);
   ("correct", Pandas.BoolS [true; false])].

(** Twenty trials: the third has no reaction time and the eleventh a
    very slow one; a tenth of the rows are flagged, which is not more
    than the threshold. *)
Definition slow_and_missing_rt : list (option Q) :=
  [Some (50 # 100); Some (52 # 100); None; Some (61 # 100); Some (47 # 100);
   Some (55 # 100); Some (58 # 100); Some (49 # 100); Some (63 # 100); Some (51 # 100);
   Some (9 # 1); Some (54 # 100); Some (57 # 100); Some (46 # 100); Some (60 # 100);
   Some (53 # 100); Some (59 # 100); Some (48 # 100); Some (56 # 100); Some (62 # 100)].

Definition slow_and_missing : Pandas.frame :=
  [("trial_index", Pandas.IntS [1; 2; 3; 4; 5; 6; 7; 8; 9; 10;
                                11; 12; 13; 14; 15; 16; 17; 18; 19; 20]%Z);
   ("rt", Pandas.FloatS slow_and_missing_rt)].

(** The same file without the third and the eleventh trial. *)
Definition slow_and_missing_cleaned : Pandas.frame :=
  [("trial_index", Pandas.IntS [1; 2; 4; 5; 6; 7; 8; 9; 10;
                                12; 13; 14; 15; 16; 17; 18; 19; 20]%Z);
   ("rt", Pandas.FloatS
      [Some (50 # 100); Some (52 # 100); Some (61 # 100); Some (47 # 100);
       Some (55 # 100); Some (58 # 100); Some (49 # 100); Some (63 # 100); Some (51 # 100);
       Some (54 # 100); Some (57 # 100); Some (46 # 100); Some (60 # 100);
       Some (53 # 100); Some (59 # 100); Some (48 # 100); Some (56 # 100); Some (62 # 100)])].

(** A manifest of [n] usable rows with file names face0.jpg,
    face1.jpg, ... *)
Definition manifest_of (n : nat) : list (gmap string string) :=
  map (fun i : nat =>
         {["filename" := "face" +:+ pretty i +:+ ".jpg";
           "source" := if Nat.even i then "ai" else "non-ai";
           "emotion" := if (i mod 4 <? 2)%nat then "happy" else "sad"]})
      (seq 0 n).

(** Five manifest rows that cover the four conditions. *)
Definition practice_rows : list (gmap string string) :=
  [{["filename" := "real_man3_sad.png"; "source" := "non-ai"; "emotion" := "sad"]};
   {["filename" := "AI_Woman07_Happy.jpg"; "source" := "AI"; "emotion" := "happy"]};
   {["filename" := "ai_man_sad.jpg"; "source" := "ai"; "emotion" := "sad"]};
   {["filename" := "real_woman2_smiling.png"; "source" := "non-ai"; "emotion" := "happy"]};
   {["filename" := "ai_woman_happy.jpg"; "source" := "ai"; "emotion" := "happy"]}].

(** Every character of [s] satisfies [p]. *)
Fixpoint all_chars (p : ascii -> bool) (s : string) : bool :=
  match s with
  | EmptyString => true
  | String c r => p c && all_chars p r
  end.

(** The emotion of a manifest row as the runner reads it. *)
Definition norm_emotion (row : gmap string string) : string :=
  PyStr.lower (PyStr.strip (Runner.get row "emotion")).

(** The fields every logged trial carries. *)
Definition trial_fields : list string :=
  ["trial_index"; "filename"; "missing_file"; "resp_key"; "rt"; "correct"].

Definition has_trial_fields (e : gmap string Runner.value) : Prop :=
  forall k, k ∈ trial_fields -> is_Some (e !! k).

(** How the response fields of one logged trial hang together. *)
Definition entry_consistent (e : gmap string Runner.value) : Prop :=
  (e !! "missing_file" = Some (Runner.VBool true) ->
   e !! "resp_key" = Some (Runner.VStr "") /\ e !! "rt" = Some (Runner.VStr "") /\
   e !! "correct" = Some (Runner.VStr "")) /\
  (forall t, e !! "rt" = Some (Runner.VFloat t) ->
   e !! "missing_file" = Some (Runner.VBool false) /\
   exists k, e !! "resp_key" = Some (Runner.VStr k) /\ Runner.in_list k Runner.QUIT_KEYS = false) /\
  (e !! "missing_file" = Some (Runner.VBool false) -> e !! "rt" = Some (Runner.VStr "") ->
   e !! "resp_key" = Some (Runner.VStr "") /\ e !! "correct" = Some (Runner.VBool false)).

(** The contribution of one target to the practice list, and the
    list after the four targets. *)
Definition picked_by (choice : list (gmap string string) -> gmap string string)
    (pool : list (gmap string string)) : list (gmap string string) :=
  match pool with
  | [] => []
  | x :: l => [choice (x :: l)]
  end.

Definition practice_by (choice : list (gmap string string) -> gmap string string)
    (all_rows : list (gmap string string)) : list (gmap string string) :=
  picked_by choice (Runner.match_rows all_rows "happy" "ai")
  ++ picked_by choice (Runner.match_rows all_rows "happy" "non-ai")
  ++ picked_by choice (Runner.match_rows all_rows "sad" "ai")
  ++ picked_by choice (Runner.match_rows all_rows "sad" "non-ai").

(** A column name that the pruning keeps. *)
Definition is_kept (c : string) : bool :=
  negb (existsb (String.eqb c) Aggregator.cols_to_remove)
  && negb (PyStr.startswith c "Unnamed").

(** The number of flagged rows. *)
Definition count_true (flags : list bool) : nat :=
  length (filter (fun b => b = true) flags).

(** The number of missing values of a numeric column. *)
Definition count_missing (rt : list (option Q)) : nat :=
  length (filter (fun o => o = None) rt).

(** The lower-cased texts of the values of a column that are not
    missing, and what makes a column name the source or the emotion. *)
Definition lowered_values (T : Pandas.numtext) (s : Pandas.series) : list string :=
  map Aggregator._lower (Pandas.dropna_astype_str T s).

Definition names_source (T : Pandas.numtext) (s : Pandas.series) : bool :=
  existsb (fun v => PyStr.contains v "non-ai" || PyStr.contains v "nonai")
          (lowered_values T s).

Definition names_emotion (T : Pandas.numtext) (s : Pandas.series) : bool :=
  existsb (fun v => PyStr.contains v "happy") (lowered_values T s)
  && existsb (fun v => PyStr.contains v "sad") (lowered_values T s).

(** The first object column, in column order, that satisfies [q]. *)
Fixpoint first_object_column (q : Pandas.series -> bool) (df : Pandas.frame)
  : option string :=
  match df with
  | [] => None
  | (c, s) :: r =>
      if Pandas.is_object s && q s then Some c else first_object_column q r
  end.

(** * Properties *)

(** ** Text *)

Lemma prefix_starts (p x : string) : String.prefix p x = true <-> starts p x.
Proof.
  unfold starts. revert x. induction p as [|c p IH]; intros x.
  - split; [intros _; exists x; reflexivity | intros _; destruct x; reflexivity].
  - destruct x as [|d x]; simpl.
    + split; [discriminate | intros [r Hr]; discriminate].
    + destruct (ascii_dec c d) as [->|Hne].
      * rewrite IH. split; intros [r Hr]; exists r.
        -- simpl. now rewrite Hr.
        -- simpl in Hr. now inversion Hr.
      * split; [discriminate | intros [r Hr]; simpl in Hr; inversion Hr; congruence].
Qed.

Lemma append_assoc (a b c : string) : (a +:+ b) +:+ c = a +:+ b +:+ c.
Proof.
  induction a as [|x a IH]; [reflexivity|].
  change (String x ((a +:+ b) +:+ c) = String x (a +:+ b +:+ c)).
  f_equal. exact IH.
Qed.

Lemma rev_str_acc (b acc : string) :
  PyStr.rev_str b acc = PyStr.rev_str b "" +:+ acc.
Proof.
  revert acc. induction b as [|c b IH]; intros acc; simpl; [reflexivity|].
  rewrite IH, (IH (String c "")). now rewrite append_assoc.
Qed.

Lemma rev_str_app (a b : string) :
  PyStr.rev_str (a +:+ b) "" = PyStr.rev_str b "" +:+ PyStr.rev_str a "".
Proof.
  generalize "" at 1 3 as acc. induction a as [|c a IH]; intros acc; simpl.
  - apply rev_str_acc.
  - apply IH.
Qed.

Lemma rev_str_involutive (s : string) : PyStr.rev_str (PyStr.rev_str s "") "" = s.
Proof.
  induction s as [|c s IH]; [reflexivity|].
  simpl. rewrite (rev_str_acc s (String c "")), rev_str_app, IH. reflexivity.
Qed.

Lemma endswith_ends (x p : string) : PyStr.endswith x p = true <-> ends p x.
Proof.
  unfold PyStr.endswith, ends. rewrite prefix_starts. unfold starts. split.
  - intros [r Hr]. exists (PyStr.rev_str r "").
    rewrite <- (rev_str_involutive x), Hr, rev_str_app, rev_str_involutive. reflexivity.
  - intros [a ->]. exists (PyStr.rev_str a ""). apply rev_str_app.
Qed.

Lemma lower_app (a b : string) : PyStr.lower (a +:+ b) = PyStr.lower a +:+ PyStr.lower b.
Proof.
  induction a as [|c a IH]; [reflexivity|].
  change (String (PyStr.lower_char c) (PyStr.lower (a +:+ b))
          = String (PyStr.lower_char c) (PyStr.lower a +:+ PyStr.lower b)).
  f_equal. exact IH.
Qed.

(** A name whose lower-cased form ends with [p] ends with a spelling
    of [p]. *)
Lemma lower_ends (f p : string) :
  ends p (PyStr.lower f) <-> exists stem ext, f = stem +:+ ext /\ PyStr.lower ext = p.
Proof.
  split.
  - intros [a Ha]. revert f Ha. induction a as [|c a IH]; intros f Ha.
    + exists "", f. split; [reflexivity | exact Ha].
    + destruct f as [|d f]; [discriminate|].
      change (String (PyStr.lower_char d) (PyStr.lower f) = String c (a +:+ p)) in Ha.
      injection Ha as _ Ha. destruct (IH f Ha) as [stem [ext [-> Hext]]].
      exists (String d stem), ext. split; [reflexivity | exact Hext].
  - intros [stem [ext [-> <-]]]. exists (PyStr.lower stem). apply lower_app.
Qed.

Lemma is_image_spec (f : string) : Classifier.is_image f = true <-> image_name f.
Proof.
  unfold Classifier.is_image, image_name. cbv zeta.
  rewrite !orb_true_iff, !endswith_ends, !lower_ends. split.
  - intros [[H|H]|H]; destruct H as [stem [ext [Hf He]]]; exists stem, ext; auto.
  - intros [stem [ext [Hf [He|[He|He]]]]]; [left; left | left; right | right];
      exists stem, ext; auto.
Qed.

Lemma contains_occurs (x p : string) : PyStr.contains x p = true <-> occurs p x.
Proof.
  unfold occurs. induction x as [|c x IH].
  - unfold PyStr.contains. rewrite orb_false_r, prefix_starts. split.
    + intros [r Hr]. exists EmptyString, r. exact Hr.
    + intros [a [b H]]. destruct a; simpl in H; [exists b; exact H | discriminate].
  - change (PyStr.contains (String c x) p)
      with (String.prefix p (String c x) || PyStr.contains x p).
    rewrite orb_true_iff, prefix_starts, IH. split.
    + intros [[r Hr] | [a [b H]]].
      * exists EmptyString, r. exact Hr.
      * exists (String c a), b. simpl. now rewrite H.
    + intros [a [b H]]. destruct a as [|d a]; simpl in H.
      * left. exists b. exact H.
      * right. inversion H. exists a, b. reflexivity.
Qed.

Lemma contains_false (x p : string) : PyStr.contains x p = false <-> ~ occurs p x.
Proof.
  rewrite <- contains_occurs. destruct (PyStr.contains x p); split; intros H;
    try reflexivity; try discriminate; try (intros D; discriminate).
  exfalso. now apply H.
Qed.

(** ** The classifier *)

Lemma any_startswith_iff (p : string) (toks : gset string) :
  Classifier.any_startswith p toks = true <-> exists t, t ∈ toks /\ starts p t.
Proof.
  unfold Classifier.any_startswith, PyStr.startswith. rewrite existsb_exists. split.
  - intros [t [Hin Hp]]. exists t. split.
    + apply elem_of_elements, list_elem_of_In, Hin.
    + now apply prefix_starts.
  - intros [t [Hin Hp]]. exists t. split.
    + apply list_elem_of_In, elem_of_elements, Hin.
    + now apply prefix_starts.
Qed.

(** C4. Gender: the exact token man gives male, else the exact token
    woman gives female, else a token starting with man gives male, else a
    token starting with woman gives female, else unknown; both exact
    tests come before either prefix test.  The file real_man3_sad.png is
    classified male. *)
Theorem classify_gender_spec (toks : gset string) :
  ("man" ∈ toks -> Classifier.classify_gender toks = "male") /\
  ("man" ∉ toks -> "woman" ∈ toks -> Classifier.classify_gender toks = "female") /\
  ("man" ∉ toks -> "woman" ∉ toks -> (exists t, t ∈ toks /\ starts "man" t) ->
   Classifier.classify_gender toks = "male") /\
  ("man" ∉ toks -> "woman" ∉ toks -> ~ (exists t, t ∈ toks /\ starts "man" t) ->
   (exists t, t ∈ toks /\ starts "woman" t) ->
   Classifier.classify_gender toks = "female") /\
  ("man" ∉ toks -> "woman" ∉ toks -> ~ (exists t, t ∈ toks /\ starts "man" t) ->
   ~ (exists t, t ∈ toks /\ starts "woman" t) ->
   Classifier.classify_gender toks = "unknown") /\
  Classifier.classify_gender {["woman"; "man7"]} = "female" /\
  Classifier.classify_gender (Classifier.tokens_from_filename "real_man3_sad.png") = "male".
Proof.
  unfold Classifier.classify_gender.
  repeat split; try (vm_compute; reflexivity).
  - intros H. now rewrite bool_decide_eq_true_2.
  - intros H1 H2. rewrite bool_decide_eq_false_2 by assumption.
    now rewrite bool_decide_eq_true_2.
  - intros H1 H2 H3. rewrite !bool_decide_eq_false_2 by assumption.
    apply any_startswith_iff in H3. now rewrite H3.
  - intros H1 H2 H3 H4. rewrite !bool_decide_eq_false_2 by assumption.
    destruct (Classifier.any_startswith "man" toks) eqn:E.
    + exfalso. apply H3. now apply any_startswith_iff.
    + apply any_startswith_iff in H4. now rewrite H4.
  - intros H1 H2 H3 H4. rewrite !bool_decide_eq_false_2 by assumption.
    destruct (Classifier.any_startswith "man" toks) eqn:E.
    + exfalso. apply H3. now apply any_startswith_iff.
    + destruct (Classifier.any_startswith "woman" toks) eqn:E'; [|reflexivity].
      exfalso. apply H4. now apply any_startswith_iff.
Qed.

(** C7. Source is ai exactly when the token ai is in the set (a token
    that only contains ai, like hair, does not count) and non-ai
    otherwise; emotion is happy for the tokens happy or smiling, else sad
    for the token sad, else unknown. *)
Theorem classify_source_emotion_spec (toks : gset string) :
  (Classifier.classify_source toks = "ai" <-> "ai" ∈ toks) /\
  (Classifier.classify_source toks = "non-ai" <-> "ai" ∉ toks) /\
  Classifier.classify_source {["hair"; "paint"]} = "non-ai" /\
  ("happy" ∈ toks \/ "smiling" ∈ toks -> Classifier.classify_emotion toks = "happy") /\
  ("happy" ∉ toks -> "smiling" ∉ toks -> "sad" ∈ toks ->
   Classifier.classify_emotion toks = "sad") /\
  ("happy" ∉ toks -> "smiling" ∉ toks -> "sad" ∉ toks ->
   Classifier.classify_emotion toks = "unknown").
Proof.
  unfold Classifier.classify_source, Classifier.classify_emotion.
  repeat split; try (vm_compute; reflexivity).
  - case_bool_decide; [trivial | discriminate].
  - intros H. now rewrite bool_decide_eq_true_2.
  - case_bool_decide; [discriminate | trivial].
  - intros H. now rewrite bool_decide_eq_false_2.
  - intros [H | H].
    + now rewrite (bool_decide_eq_true_2 _ H).
    + rewrite (bool_decide_eq_true_2 _ H). now rewrite orb_true_r.
  - intros H1 H2 H3. rewrite !bool_decide_eq_false_2 by assumption.
    now rewrite bool_decide_eq_true_2.
  - intros H1 H2 H3. now rewrite !bool_decide_eq_false_2 by assumption.
Qed.

Lemma leb_trans (a b c : string) :
  String.leb a b = true -> String.leb b c = true -> String.leb a c = true.
Proof.
  unfold String.leb. revert b c.
  induction a as [|x a IH]; intros [|y b] [|z c]; simpl; try easy.
  unfold Ascii.compare.
  destruct (N.compare_spec (N_of_ascii x) (N_of_ascii y));
    destruct (N.compare_spec (N_of_ascii y) (N_of_ascii z));
    destruct (N.compare_spec (N_of_ascii x) (N_of_ascii z));
    try easy; try lia.
  apply IH.
Qed.

#[local] Instance name_le_trans : Transitive name_le.
Proof. intros a b c. apply leb_trans. Qed.

#[local] Instance name_le_antisym : AntiSymm (=) name_le.
Proof. intros a b. apply String.leb_antisym. Qed.

Lemma name_le_total (a b : string) : name_le a b \/ name_le b a.
Proof. apply String.leb_total. Qed.

Section Sorting.
Import Classifier.

Lemma insert_sorted_perm (x : string) (l : list string) :
  Permutation (insert_sorted x l) (x :: l).
Proof.
  induction l as [|y r IH]; simpl.
  - reflexivity.
  - destruct (String.leb x y); [reflexivity|].
    rewrite IH. apply perm_swap.
Qed.

Lemma sorted_perm (l : list string) : Permutation (sorted l) l.
Proof.
  induction l as [|x r IH]; simpl; [reflexivity|].
  rewrite insert_sorted_perm. now constructor.
Qed.

Lemma insert_sorted_strongly (x : string) (l : list string) :
  StronglySorted name_le l -> StronglySorted name_le (insert_sorted x l).
Proof.
  induction 1 as [|y r Hs IH Hy]; simpl.
  - repeat constructor.
  - destruct (String.leb x y) eqn:E.
    + constructor; [now constructor|].
      constructor; [exact E|].
      eapply list.Forall_impl; [exact Hy|]. intros z Hz.
      eapply leb_trans; [exact E | exact Hz].
    + constructor; [exact IH|].
      assert (Hyx : name_le y x).
      { destruct (name_le_total x y) as [H|H]; [unfold name_le in H; congruence | exact H]. }
      rewrite (insert_sorted_perm x r). now constructor.
Qed.

Lemma sorted_strongly (l : list string) : StronglySorted name_le (sorted l).
Proof.
  induction l as [|x r IH]; simpl; [constructor|].
  now apply insert_sorted_strongly.
Qed.

Lemma filter_strongly (P : string -> bool) (l : list string) :
  StronglySorted name_le l ->
  StronglySorted name_le (filter (fun f => P f = true) l).
Proof.
  induction 1 as [|y r Hs IH Hy].
  - constructor.
  - rewrite filter_cons. destruct (decide (P y = true)); [|exact IH].
    constructor; [exact IH|].
    apply list.Forall_forall. intros z Hz.
    apply list_elem_of_filter in Hz as [_ Hz].
    rewrite list.Forall_forall in Hy. now apply Hy.
Qed.

(** The listing order does not matter. *)
Lemma sorted_perm_eq (l1 l2 : list string) :
  Permutation l1 l2 -> sorted l1 = sorted l2.
Proof.
  intros H. apply (StronglySorted_unique name_le).
  - apply sorted_strongly.
  - apply sorted_strongly.
  - rewrite !sorted_perm. exact H.
Qed.

End Sorting.

(** C8. The manifest is a function of the directory contents alone,
    whatever order the directory is listed in: the fixed four-column
    header, then one row per name that ends in .jpg, .jpeg or .png in any
    letter case (a directory entry is taken exactly when its name is
    such a name), the rows in ascending order of file name. *)
Theorem main_deterministic (l1 l2 : list string) :
  Permutation l1 l2 ->
  Classifier.main (Some l1) = Classifier.main (Some l2) /\
  (forall f : string, Classifier.is_image f = true <-> image_name f) /\
  exists files : list string,
    Permutation files (filter (fun f => Classifier.is_image f = true) l1) /\
    (forall f : string, f ∈ files <-> f ∈ l1 /\ image_name f) /\
    StronglySorted name_le files /\
    Classifier.main (Some l1) =
      Done (Classifier.write_csv
              (["filename"; "source"; "gender"; "emotion"]
               :: map (fun f => [f;
                                 Classifier.classify_source (Classifier.tokens_from_filename f);
                                 Classifier.classify_gender (Classifier.tokens_from_filename f);
                                 Classifier.classify_emotion (Classifier.tokens_from_filename f)])
                      files)).
Proof.
  intros H. split; [|split].
  - unfold Classifier.main, Classifier.manifest_rows.
    now rewrite (sorted_perm_eq l1 l2 H).
  - apply is_image_spec.
  - exists (filter (fun f => Classifier.is_image f = true) (Classifier.sorted l1)).
    split; [|split; [|split]].
    + apply filter_Permutation, sorted_perm.
    + intros f. rewrite list_elem_of_filter, is_image_spec, (sorted_perm l1). tauto.
    + apply filter_strongly, sorted_strongly.
    + reflexivity.
Qed.

Lemma main_deterministic_witness :
  Classifier.main (Some ["b.PNG"; "notes.txt"; "a.jpg"; "c.JpEg"; "jpg"; "d.png.bak"]) =
  Classifier.main (Some ["a.jpg"; "b.PNG"; "notes.txt"; "c.JpEg"; "jpg"; "d.png.bak"]) /\
  (forall f : string, Classifier.is_image f = true <-> image_name f) /\
  exists files : list string,
    Permutation files (filter (fun f => Classifier.is_image f = true)
                               ["b.PNG"; "notes.txt"; "a.jpg"; "c.JpEg"; "jpg"; "d.png.bak"]) /\
    (forall f : string,
       f ∈ files <->
       f ∈ ["b.PNG"; "notes.txt"; "a.jpg"; "c.JpEg"; "jpg"; "d.png.bak"] /\ image_name f) /\
    StronglySorted name_le files /\
    Classifier.main (Some ["b.PNG"; "notes.txt"; "a.jpg"; "c.JpEg"; "jpg"; "d.png.bak"]) =
      Done (Classifier.write_csv
              (["filename"; "source"; "gender"; "emotion"]
               :: map (fun f => [f;
                                 Classifier.classify_source (Classifier.tokens_from_filename f);
                                 Classifier.classify_gender (Classifier.tokens_from_filename f);
                                 Classifier.classify_emotion (Classifier.tokens_from_filename f)])
                      files)).
Proof.
  apply (main_deterministic ["b.PNG"; "notes.txt"; "a.jpg"; "c.JpEg"; "jpg"; "d.png.bak"]
           ["a.jpg"; "b.PNG"; "notes.txt"; "c.JpEg"; "jpg"; "d.png.bak"]).
  apply Permutation_sym.
  apply (Permutation_app_tail ["c.JpEg"; "jpg"; "d.png.bak"]
           (Permutation_cons_append ["b.PNG"; "notes.txt"] "a.jpg")).
Defined.

(** ** The session runner *)

(** C9. A trial whose stimulus file exists and in which no key arrives
    within the response window is logged with correct = False while rt
    and resp_key stay blank, and the loop goes on. *)
Theorem timeout_logged_incorrect_blank_rt
    (t_idx : Z) (row : gmap string string) (env : Runner.trial_env) (h : Runner.handler) :
  Runner.quit_pressed env = false ->
  Runner.file_exists env = true ->
  Runner.keys env = None \/ Runner.keys env = Some [] ->
  exists e : gmap string Runner.value,
    Runner.trial t_idx row env h =
      ({| Runner.entries := Runner.entries h ++ [e]; Runner.thisEntry := ∅ |},
       Runner.Continue) /\
    e !! "correct" = Some (Runner.VBool false) /\
    e !! "rt" = Some (Runner.VStr "") /\
    e !! "resp_key" = Some (Runner.VStr "") /\
    e !! "missing_file" = Some (Runner.VBool false).
Proof.
  intros Hq Hf Hk. unfold Runner.trial. rewrite Hq, Hf. simpl negb. cbv iota.
  assert (Hr : forall emo, Runner.response emo (Runner.keys env) =
                           Some (Runner.VStr "", Runner.VStr "", Runner.VBool false)).
  { intros emo. destruct Hk as [-> | ->]; reflexivity. }
  rewrite Hr. eexists. split; [reflexivity|].
  unfold Runner.addData, Runner.nextEntry; simpl.
  repeat split; simplify_map_eq; reflexivity.
Qed.

Lemma timeout_logged_incorrect_blank_rt_witness :
  exists e : gmap string Runner.value,
    Runner.trial 1 {["filename" := "ai_man_happy.jpg"; "emotion" := "happy"]}
      {| Runner.quit_pressed := false; Runner.file_exists := true; Runner.keys := None |}
      {| Runner.entries := []; Runner.thisEntry := ∅ |} =
      ({| Runner.entries := [] ++ [e]; Runner.thisEntry := ∅ |}, Runner.Continue) /\
    e !! "correct" = Some (Runner.VBool false) /\
    e !! "rt" = Some (Runner.VStr "") /\
    e !! "resp_key" = Some (Runner.VStr "") /\
    e !! "missing_file" = Some (Runner.VBool false).
Proof.
  apply (timeout_logged_incorrect_blank_rt 1
           {["filename" := "ai_man_happy.jpg"; "emotion" := "happy"]}
           {| Runner.quit_pressed := false; Runner.file_exists := true; Runner.keys := None |}
           {| Runner.entries := []; Runner.thisEntry := ∅ |}).
  - reflexivity.
  - reflexivity.
  - left. reflexivity.
Defined.

(** ** The aggregator: value normalisation *)

(** C5. A lower-cased source value that contains non-ai, nonai, real or
    human normalises to non-ai; otherwise one that contains ai normalises
    to ai; otherwise it is unresolved.  Non-AI-Dataset normalises to
    non-ai, not to ai. *)
Theorem normalize_database_spec (x : string) :
  (occurs "non-ai" x \/ occurs "nonai" x \/ occurs "real" x \/ occurs "human" x ->
   Aggregator.normalize_database x = Some "non-ai") /\
  (~ (occurs "non-ai" x \/ occurs "nonai" x \/ occurs "real" x \/ occurs "human" x) ->
   occurs "ai" x -> Aggregator.normalize_database x = Some "ai") /\
  (~ (occurs "non-ai" x \/ occurs "nonai" x \/ occurs "real" x \/ occurs "human" x) ->
   ~ occurs "ai" x -> Aggregator.normalize_database x = None) /\
  Aggregator._lower "Non-AI-Dataset" = "non-ai-dataset" /\
  occurs "ai" "non-ai-dataset" /\
  Aggregator.normalize_database (Aggregator._lower "Non-AI-Dataset") = Some "non-ai".
Proof.
  unfold Aggregator.normalize_database.
  repeat split; try (vm_compute; reflexivity).
  - intros H.
    assert (E : PyStr.contains x "non-ai" || PyStr.contains x "nonai"
                || PyStr.contains x "real" || PyStr.contains x "human" = true).
    { rewrite !orb_true_iff, !contains_occurs. tauto. }
    now rewrite E.
  - intros H Hai.
    assert (E : PyStr.contains x "non-ai" || PyStr.contains x "nonai"
                || PyStr.contains x "real" || PyStr.contains x "human" = false).
    { apply not_true_is_false. rewrite !orb_true_iff, !contains_occurs. tauto. }
    rewrite E. apply contains_occurs in Hai. now rewrite Hai.
  - intros H Hai.
    assert (E : PyStr.contains x "non-ai" || PyStr.contains x "nonai"
                || PyStr.contains x "real" || PyStr.contains x "human" = false).
    { apply not_true_is_false. rewrite !orb_true_iff, !contains_occurs. tauto. }
    rewrite E. apply contains_false in Hai. now rewrite Hai.
  - exists "non-", "-dataset". reflexivity.
Qed.

(** ** The aggregator: outlier flags *)

Lemma Qltb_lt (x y : Q) : Pandas.Qltb x y = true <-> (x < y)%Q.
Proof.
  unfold Pandas.Qltb. rewrite negb_true_iff. split.
  - intros H. apply Qnot_le_lt. intros Hle.
    apply Qle_bool_iff in Hle. congruence.
  - intros H. apply not_true_is_false. intros Hle.
    apply Qle_bool_iff in Hle. exact (Qlt_not_le _ _ H Hle).
Qed.

Lemma lookup_map {A B : Type} (f : A -> B) (l : list A) (i : nat) :
  map f l !! i = f <$> (l !! i).
Proof.
  revert i. induction l as [|x r IH]; intros [|i]; simpl; try reflexivity.
  apply IH.
Qed.

Lemma combine_map_same {A B C : Type} (f : A -> B) (g : A -> C) (l : list A) :
  combine (map f l) (map g l) = map (fun x => (f x, g x)) l.
Proof. induction l as [|x r IH]; simpl; [reflexivity | now rewrite IH]. Qed.

(** Selecting the rows that are not missing keeps the valid values. *)
Lemma valid_rt_dropna (rt : list (option Q)) :
  Pandas.dropna (Pandas.select (map negb (Pandas.isna rt)) rt) = Pandas.dropna rt.
Proof.
  unfold Pandas.dropna.
  induction rt as [|[x|] r IH]; simpl; [reflexivity | | exact IH].
  f_equal. exact IH.
Qed.

Lemma rt_outlier_map (rt : list (option Q)) :
  Aggregator.rt_outlier rt = map (flag_of (Pandas.dropna rt)) rt.
Proof.
  unfold Aggregator.rt_outlier. rewrite valid_rt_dropna.
  unfold Pandas.isna, flag_of, lower_fence, upper_fence.
  destruct (4 <=? length (Pandas.dropna rt))%nat;
    rewrite combine_map_same, map_map; apply map_ext; intros [x|]; reflexivity.
Qed.

Lemma elem_of_dropna (rt : list (option Q)) (x : Q) :
  x ∈ Pandas.dropna rt <-> Some x ∈ rt.
Proof.
  unfold Pandas.dropna. rewrite list_elem_of_omap. split.
  - intros [o [Hin Ho]]. simpl in Ho. now subst.
  - intros H. exists (Some x). now split.
Qed.

(** The sorting the quartiles rest on. *)

Lemma insert_Q_perm (x : Q) (l : list Q) : Permutation (Pandas.insert_Q x l) (x :: l).
Proof.
  induction l as [|y r IH]; simpl; [reflexivity|].
  destruct (Qle_bool x y); [reflexivity|].
  etransitivity; [apply perm_skip, IH | apply perm_swap].
Qed.

Lemma sort_Q_perm (l : list Q) : Permutation (Pandas.sort_Q l) l.
Proof.
  induction l as [|x r IH]; simpl; [reflexivity|].
  etransitivity; [apply insert_Q_perm | now apply perm_skip].
Qed.

Lemma insert_Q_sorted (x : Q) (l : list Q) :
  StronglySorted Qle l -> StronglySorted Qle (Pandas.insert_Q x l).
Proof.
  induction 1 as [|y r Hs IH Hy]; simpl.
  - repeat constructor.
  - destruct (Qle_bool x y) eqn:E.
    + apply Qle_bool_iff in E. constructor; [now constructor|].
      constructor; [exact E|].
      eapply List.Forall_impl; [|exact Hy]. intros z Hz. eapply Qle_trans; eassumption.
    + constructor; [exact IH|].
      assert (Hyx : (y <= x)%Q).
      { apply Qlt_le_weak, Qnot_le_lt. intros H. apply Qle_bool_iff in H. congruence. }
      eapply Permutation_Forall; [symmetry; apply insert_Q_perm|].
      now constructor.
Qed.

Lemma sort_Q_sorted (l : list Q) : StronglySorted Qle (Pandas.sort_Q l).
Proof. induction l as [|x r IH]; simpl; [constructor | now apply insert_Q_sorted]. Qed.

(** C3. With a reaction-time column: a row with a missing reaction time
    is flagged; with at least 4 valid reaction times a row with a value
    is flagged exactly when the value is below Q1 - 1.5 IQR or above
    Q3 + 1.5 IQR, where Q1, Q3 and IQR are computed over the valid
    values only, in binary64; with fewer than 4 valid values no row
    with a value is flagged.  Q1 and Q3 are the values at positions
    (n-1)/4 and 3(n-1)/4 of the n valid values in ascending order.
    Three files evaluated: in the first the value 1.95 is flagged, the
    upper fence 0.9 + 1.5 * (0.9 - 0.2) being 1.9499999999999997 in
    binary64; the second has a missing value and quartiles between two
    neighbours (0.3125 and 0.5599999999999999); in the third all four
    values are infinite, the quartiles are NaN and no row is flagged. *)
Theorem rt_outlier_spec :
  (forall rt : list (option Q),
     let valid := Pandas.dropna rt in
     let Q1 := Pandas.quantile valid (1 # 4) in
     let Q3 := Pandas.quantile valid (3 # 4) in
     let IQR := Float64.sub Q3 Q1 in
     let lower_bound := Float64.sub Q1 (Float64.mul (Float64.of_Q (3 # 2)) IQR) in
     let upper_bound := Float64.add Q3 (Float64.mul (Float64.of_Q (3 # 2)) IQR) in
     length (Aggregator.rt_outlier rt) = length rt /\
     (forall x : Q, x ∈ valid <-> Some x ∈ rt) /\
     forall i : nat,
       (rt !! i = Some None -> Aggregator.rt_outlier rt !! i = Some true) /\
       (forall x : Q, rt !! i = Some (Some x) -> (4 <= length valid)%nat ->
          exists b : bool,
            Aggregator.rt_outlier rt !! i = Some b /\
            (b = true <-> below x lower_bound \/ above x upper_bound)) /\
       (forall x : Q, rt !! i = Some (Some x) -> (length valid < 4)%nat ->
          Aggregator.rt_outlier rt !! i = Some false)) /\
  (forall valid : list Q,
     exists s : list Q,
       Permutation s valid /\ StronglySorted Qle s /\
       Pandas.quantile valid (1 # 4)
         = value_at s (inject_Z (Z.of_nat (length valid) - 1) * (1 # 4)) /\
       Pandas.quantile valid (3 # 4)
         = value_at s (inject_Z (Z.of_nat (length valid) - 1) * (3 # 4))) /\
  (Aggregator.rt_outlier
     [Some (2 # 10); Some (2 # 10); Some (5 # 10); Some (9 # 10); Some (195 # 100)]
     = [false; false; false; false; true] /\
   upper_fence [2 # 10; 2 # 10; 5 # 10; 9 # 10; 195 # 100]
     = S754_finite false 8782019273372466 (-52) /\
   Float64.of_Q (195 # 100) = S754_finite false 8782019273372467 (-52)) /\
  (Aggregator.rt_outlier
     [Some (61 # 100); None; Some (2 # 10); Some (31 # 10); Some (35 # 100); Some (3 # 10);
      Some (41 # 100)]
     = [false; true; false; true; false; false; false] /\
   Pandas.quantile [61 # 100; 2 # 10; 31 # 10; 35 # 100; 3 # 10; 41 # 100] (1 # 4)
     = S754_finite false 5629499534213120 (-54) /\
   Pandas.quantile [61 # 100; 2 # 10; 31 # 10; 35 # 100; 3 # 10; 41 # 100] (3 # 4)
     = S754_finite false 5044031582654955 (-53) /\
   lower_fence [61 # 100; 2 # 10; 31 # 10; 35 # 100; 3 # 10; 41 # 100]
     = S754_finite true 8466767299456520 (-57) /\
   upper_fence [61 # 100; 2 # 10; 31 # 10; 35 # 100; 3 # 10; 41 # 100]
     = S754_finite false 8387954305977548 (-53)) /\
  (Float64.of_Q (inject_Z (10 ^ 400)) = S754_infinity false /\
   Pandas.quantile (repeat (inject_Z (10 ^ 400)) 4) (1 # 4) = S754_nan /\
   Pandas.quantile (repeat (inject_Z (10 ^ 400)) 4) (3 # 4) = S754_nan /\
   Aggregator.rt_outlier (repeat (Some (inject_Z (10 ^ 400))) 4)
     = [false; false; false; false]).
Proof.
  split; [|split; [|split; [|split]]].
  - intros rt valid Q1 Q3 IQR lower_bound upper_bound.
    change lower_bound with (lower_fence valid).
    change upper_bound with (upper_fence valid).
    subst valid. split; [|split].
    + rewrite rt_outlier_map. apply length_map.
    + intros x. apply elem_of_dropna.
    + intros i. rewrite rt_outlier_map, lookup_map. repeat split.
      * intros ->. reflexivity.
      * intros x -> Hlen. apply Nat.leb_le in Hlen.
        exists (flag_of (Pandas.dropna rt) (Some x)). split; [reflexivity|].
        unfold flag_of, below, above. rewrite Hlen. apply orb_true_iff.
      * intros x -> Hlen. apply Nat.leb_gt in Hlen.
        change (Some (flag_of (Pandas.dropna rt) (Some x)) = Some false).
        unfold flag_of. now rewrite Hlen.
  - intros valid. exists (Pandas.sort_Q valid).
    split; [apply sort_Q_perm|]. split; [apply sort_Q_sorted|].
    split; reflexivity.
  - vm_compute. repeat split; reflexivity.
  - vm_compute. repeat split; reflexivity.
  - vm_compute. repeat split; reflexivity.
Qed.

(** ** The aggregator: one file of the batch *)

Section PerFile.
Import Pandas Aggregator.
Variable T : numtext.

Lemma get_col_filter (c : string) (P : string * series -> Prop)
    `{!forall x, Decision (P x)} (df : frame) :
  (forall s, P (c, s)) -> get_col c (filter P df) = get_col c df.
Proof.
  intros HP. induction df as [|[c' s'] r IH]; [reflexivity|].
  rewrite filter_cons. destruct (decide (P (c', s'))) as [Hyes|Hno]; simpl.
  - destruct (String.eqb c c'); [reflexivity | exact IH].
  - destruct (String.eqb_spec c c') as [->|Hne]; [|exact IH].
    exfalso. apply Hno, HP.
Qed.

Lemma existsb_filter_false {A : Type} (f : A -> bool) (P : A -> Prop)
    `{!forall x, Decision (P x)} (l : list A) :
  existsb f l = false -> existsb f (filter P l) = false.
Proof.
  induction l as [|x r IH]; [reflexivity|]. simpl.
  intros Hf. apply orb_false_iff in Hf as [Hx Hr].
  rewrite filter_cons. destruct (decide (P x)); simpl.
  - rewrite Hx. now apply IH.
  - now apply IH.
Qed.

(** The column rt is never pruned. *)
Lemma get_col_prune_rt (df : frame) : get_col "rt" (prune df) = get_col "rt" df.
Proof.
  unfold prune, drop. rewrite get_col_filter.
  - apply get_col_filter. intros s. simpl fst.
    now apply existsb_filter_false.
  - intros s. exact I.
Qed.

Lemma remove_rt_outliers_None (df : frame) :
  remove_rt_outliers T df = None <-> exceeds_threshold T df = true.
Proof.
  unfold remove_rt_outliers, exceeds_threshold.
  destruct (get_col "rt" df) as [s|]; [|split; discriminate].
  cbv zeta.
  destruct (too_many (outlier_pct (rt_outlier (to_numeric T s))));
    split; try reflexivity; discriminate.
Qed.

Lemma remove_rt_outliers_Some (df : frame) :
  exceeds_threshold T df = false -> exists kept, remove_rt_outliers T df = Some kept.
Proof.
  intros H. destruct (remove_rt_outliers T df) as [kept|] eqn:E; [now exists kept|].
  apply remove_rt_outliers_None in E. congruence.
Qed.

Lemma process_file_skipped (filename : string) (df : frame) :
  exceeds_threshold T (prune df) = true -> process_file T filename df = Done Skipped.
Proof.
  intros H. apply remove_rt_outliers_None in H.
  unfold process_file. now rewrite H.
Qed.

Lemma batch_skipped (filename : string) (df : frame)
    (rest : list (string * frame)) (st : state) :
  exceeds_threshold T (prune df) = true ->
  batch T ((filename, df) :: rest) st = batch T rest st.
Proof.
  intros H. simpl. destruct (PyStr.endswith filename ".csv"); [|reflexivity].
  now rewrite (process_file_skipped filename df H).
Qed.

(** C1. A session file with a reaction-time column whose percentage of
    flagged rows exceeds 10 ends its loop iteration at once: nothing is
    written back, no summary row is appended, nothing is raised, and the
    batch goes on with the next file. *)
Theorem outlier_file_skipped (filename : string) (df : frame) (s : series) (p : Q)
    (rest : list (string * frame)) (st : state) :
  PyStr.endswith filename ".csv" = true ->
  get_col "rt" df = Some s ->
  outlier_pct (rt_outlier (to_numeric T s)) = Some p ->
  (10 < p)%Q ->
  process_file T filename df = Done Skipped /\
  batch T ((filename, df) :: rest) st = batch T rest st /\
  batch T [(filename, df)] st = Done st.
Proof.
  intros Hcsv Hrt Hp Hlt.
  assert (Hex : exceeds_threshold T (prune df) = true).
  { unfold exceeds_threshold. rewrite get_col_prune_rt, Hrt, Hp. simpl.
    now apply Qltb_lt. }
  split; [|split].
  - now apply process_file_skipped.
  - now apply batch_skipped.
  - now rewrite batch_skipped.
Qed.

Lemma get_col_frame_select (c : string) (mask : list bool) (df : frame) :
  get_col c (frame_select mask df) = series_select mask <$> get_col c df.
Proof.
  induction df as [|[c' s'] r IH]; [reflexivity|]. simpl.
  destruct (String.eqb c c'); [reflexivity | exact IH].
Qed.

Lemma summarise_Done (filename : string) (kept : frame) (cb : option (list bool)) :
  correct_bool_of T kept = Done cb ->
  exists row,
    summarise T filename kept = Done (numeric_rt T kept, row) /\
    database_name row = fst (Classifier.splitext filename) /\
    (fst (condition_columns T kept) = None \/ snd (condition_columns T kept) = None ->
     row = nan_row (fst (Classifier.splitext filename))) /\
    (get_col "rt" kept = None ->
     ai_sad_avg_rt row = None /\ ai_happy_avg_rt row = None /\
     non_ai_sad_avg_rt row = None /\ non_ai_happy_avg_rt row = None).
Proof.
  intros Hcb. unfold summarise. rewrite Hcb. simpl.
  destruct (condition_columns T kept) as [[dc|] [ec|]]; simpl;
    eexists; (split; [reflexivity|]); (split; [reflexivity|]); split;
    try (intros _; reflexivity); try (intros [D|D]; discriminate);
    try (intros _; repeat split; reflexivity).
  intros Hrt. unfold compute_metrics, numeric_rt. rewrite Hrt.
  rewrite !get_col_frame_select, Hrt. repeat split; reflexivity.
Qed.

(** C2, as the code has it.  A session file whose outlier rate exceeds
    the threshold contributes no row.  Any other session file whose
    correctness column is coerced without an exception contributes
    exactly one row, appended after the rows collected so far, and that
    row holds NaN in all eight metrics when the source or the emotion
    column cannot be identified. *)
Theorem row_unless_skipped (filename : string) (df : frame)
    (rest : list (string * frame)) (st : state) :
  PyStr.endswith filename ".csv" = true ->
  (exceeds_threshold T (prune df) = true ->
   batch T ((filename, df) :: rest) st = batch T rest st) /\
  (exceeds_threshold T (prune df) = false ->
   exists kept,
     remove_rt_outliers T (prune df) = Some kept /\
     forall cb, correct_bool_of T kept = Done cb ->
       exists row,
         batch T ((filename, df) :: rest) st =
           batch T rest
             {| summary_rows := summary_rows st ++ [row];
                written := written st ++ [(file_path filename, numeric_rt T kept)] |} /\
         database_name row = fst (Classifier.splitext filename) /\
         (fst (condition_columns T kept) = None \/ snd (condition_columns T kept) = None ->
          row = nan_row (fst (Classifier.splitext filename)))).
Proof.
  intros Hcsv. split.
  - apply batch_skipped.
  - intros Hno. destruct (remove_rt_outliers_Some _ Hno) as [kept Hkept].
    exists kept. split; [exact Hkept|]. intros cb Hcb.
    destruct (summarise_Done filename kept cb Hcb) as [row [Hs [Hname [Hnan _]]]].
    exists row. split; [|split; assumption].
    simpl. rewrite Hcsv. unfold process_file. rewrite Hkept, Hs. reflexivity.
Qed.

(** A file without a reaction-time column is never skipped; when its
    correctness column is coerced without an exception, it is written
    back with all its rows and gets a row whose four mean reaction times
    are NaN. *)
Lemma no_rt_file_processed (filename : string) (df : frame) (cb : option (list bool)) :
  get_col "rt" df = None ->
  correct_bool_of T (prune df) = Done cb ->
  exists row,
    process_file T filename df = Done (Processed (prune df) row) /\
    ai_sad_avg_rt row = None /\ ai_happy_avg_rt row = None /\
    non_ai_sad_avg_rt row = None /\ non_ai_happy_avg_rt row = None.
Proof.
  intros Hrt Hcb. rewrite <- get_col_prune_rt in Hrt.
  destruct (summarise_Done filename (prune df) cb Hcb) as [row [Hs [_ [_ Havg]]]].
  exists row. split; [|now apply Havg].
  unfold process_file, remove_rt_outliers. rewrite Hrt, Hs. simpl.
  unfold numeric_rt. now rewrite Hrt.
Qed.

(** Without a reaction-time column the only exception is the one of the
    correctness coercion. *)
Lemma no_rt_file_outcomes (filename : string) (df : frame) :
  get_col "rt" df = None ->
  (exists row, process_file T filename df = Done (Processed (prune df) row)) \/
  (exists e, correct_bool_of T (prune df) = Raised e /\
             process_file T filename df = Raised e).
Proof.
  intros Hrt. destruct (correct_bool_of T (prune df)) as [cb|e] eqn:Hcb.
  - left. destruct (no_rt_file_processed filename df cb Hrt Hcb) as [row [H _]].
    now exists row.
  - right. exists e. split; [reflexivity|].
    rewrite <- get_col_prune_rt in Hrt.
    unfold process_file, remove_rt_outliers, summarise. rewrite Hrt, Hcb. reflexivity.
Qed.

(** Values that are already boolean are kept. *)
Lemma coerce_bool_kept (l : list bool) :
  coerce_correct_series T (Some (BoolS l)) = Done (Some l).
Proof. reflexivity. Qed.

(** The numeric branch raises as soon as a value is missing. *)
Lemma coerce_numeric_missing_raises (s : series) :
  (forall l, s <> BoolS l) ->
  existsb notna (to_numeric T s)
    && forallb is_0_or_1 (unique_Q (dropna (to_numeric T s))) = true ->
  None ∈ to_numeric T s ->
  coerce_correct_series T (Some s) = Raised IntCastingNaNError.
Proof.
  intros Hnb Hnum Hnone.
  assert (Hall : forallb (fun o : option Q => match o with Some _ => true | None => false end)
                   (to_numeric T s) = false).
  { apply not_true_is_false. intros H. rewrite forallb_forall in H.
    apply list_elem_of_In in Hnone. now apply H in Hnone. }
  unfold coerce_correct_series.
  destruct s as [l|l|l|l]; [now contradiction (Hnb l)| | |];
    rewrite Hnum; unfold astype_int; rewrite Hall; reflexivity.
Qed.

End PerFile.

(** ** The aggregator on the example files *)

Lemma outlier_file_skipped_witness :
  Aggregator.process_file plain_text "p01.csv" half_missing = Done Aggregator.Skipped /\
  Aggregator.batch plain_text
    [("p01.csv", half_missing); ("p02.csv", no_rt_no_conditions)] Aggregator.initial =
  Aggregator.batch plain_text [("p02.csv", no_rt_no_conditions)] Aggregator.initial /\
  Aggregator.batch plain_text [("p01.csv", half_missing)] Aggregator.initial =
  Done Aggregator.initial.
Proof.
  apply (outlier_file_skipped plain_text "p01.csv" half_missing
           (Pandas.FloatS [Some (1 # 2); None]) (100 * (1 # 2))
           [("p02.csv", no_rt_no_conditions)] Aggregator.initial).
  - reflexivity.
  - reflexivity.
  - reflexivity.
  - reflexivity.
Defined.

(** The session file [half_missing] exceeds the threshold, and the
    summary table of a batch that holds only this file has no row for
    it: no table is written at all. *)
Lemma skipped_file_has_no_row :
  exceeds_threshold plain_text (Aggregator.prune half_missing) = true /\
  Aggregator.batch plain_text [("p01.csv", half_missing)] Aggregator.initial =
    Done {| Aggregator.summary_rows := []; Aggregator.written := [] |} /\
  Aggregator.script plain_text [("p01.csv", half_missing)] = Done ([], None).
Proof. repeat split; vm_compute; reflexivity. Qed.

Lemma row_unless_skipped_witness :
  (exceeds_threshold plain_text (Aggregator.prune no_rt_no_conditions) = true ->
   Aggregator.batch plain_text [("p02.csv", no_rt_no_conditions)] Aggregator.initial =
   Aggregator.batch plain_text [] Aggregator.initial) /\
  (exceeds_threshold plain_text (Aggregator.prune no_rt_no_conditions) = false ->
   exists kept,
     Aggregator.remove_rt_outliers plain_text (Aggregator.prune no_rt_no_conditions)
       = Some kept /\
     forall cb, Aggregator.correct_bool_of plain_text kept = Done cb ->
       exists row,
         Aggregator.batch plain_text [("p02.csv", no_rt_no_conditions)] Aggregator.initial =
           Aggregator.batch plain_text []
             {| Aggregator.summary_rows := Aggregator.summary_rows Aggregator.initial ++ [row];
                Aggregator.written :=
                  Aggregator.written Aggregator.initial
                  ++ [(Aggregator.file_path "p02.csv", Aggregator.numeric_rt plain_text kept)] |} /\
         Aggregator.database_name row = fst (Classifier.splitext "p02.csv") /\
         (fst (Aggregator.condition_columns plain_text kept) = None
          \/ snd (Aggregator.condition_columns plain_text kept) = None ->
          row = Aggregator.nan_row (fst (Classifier.splitext "p02.csv")))).
Proof.
  apply (row_unless_skipped plain_text "p02.csv" no_rt_no_conditions [] Aggregator.initial).
  reflexivity.
Defined.

(** The file without identifiable condition columns does get its row of
    NaN and is written back. *)
Example no_conditions_row :
  Aggregator.script plain_text [("p02.csv", no_rt_no_conditions)] =
  Done ([("../1. Raw Data/p02.csv", no_rt_no_conditions)],
        Some [Aggregator.nan_row "p02"]).
Proof. vm_compute. reflexivity. Qed.

(** ** The aggregator: correctness coercion *)

(** Numbers restricted to 0 and 1, none missing, become booleans. *)
Example coerce_zero_one (T : Pandas.numtext) :
  Aggregator.coerce_correct_series T (Some (Pandas.IntS [1; 0; 1]%Z)) =
  Done (Some [true; false; true]).
Proof. reflexivity. Qed.

(** The texts true and false, in any case, become booleans. *)
Example coerce_true_false :
  Aggregator.coerce_correct_series plain_text
    (Some (Pandas.ObjS [Pandas.OStr "TRUE"; Pandas.OStr "False"; Pandas.OStr "true"])) =
  Done (Some [true; false; true]).
Proof. vm_compute. reflexivity. Qed.

(** Anything else is unusable. *)
Example coerce_unusable :
  Aggregator.coerce_correct_series plain_text
    (Some (Pandas.ObjS [Pandas.OStr "yes"; Pandas.OStr "no"])) = Done None.
Proof. vm_compute. reflexivity. Qed.

(** C6. The coercion does raise: on the values 1, 0 and a missing one
    the numeric test passes, and the cast to int that follows raises
    IntCastingNaNError. *)
Theorem coerce_raises_on_missing_value (T : Pandas.numtext) :
  Aggregator.coerce_correct_series T (Some (Pandas.FloatS [Some 1%Q; Some 0%Q; None])) =
  Raised IntCastingNaNError.
Proof. reflexivity. Qed.

(** C10. A session file without a reaction-time column is not always
    written back: when its correctness column holds 1, 0 and an empty
    cell, the coercion raises, so the file gets neither a cleaned copy
    nor a summary row and the run ends there. *)
Theorem no_rt_file_aborts_on_blank_correct :
  Pandas.get_col "rt" no_rt_blank_correct = None /\
  Aggregator.process_file plain_text "p03.csv" no_rt_blank_correct =
    Raised IntCastingNaNError /\
  Aggregator.script plain_text [("p03.csv", no_rt_blank_correct)] =
    Raised IntCastingNaNError.
Proof. repeat split; vm_compute; reflexivity. Qed.

(** * Further properties of the code *)

(** ** The classifier: tokens and manifest *)

Lemma all_chars_app (p : ascii -> bool) (a b : string) :
  all_chars p (a +:+ b) = all_chars p a && all_chars p b.
Proof.
  induction a as [|c a IH]; simpl; [reflexivity|].
  now rewrite IH, andb_assoc.
Qed.

Lemma split_aux_token_chars (s cur : string) (in_sep : bool) :
  all_chars Classifier.is_token_char cur = true ->
  Forall (fun t => all_chars Classifier.is_token_char t = true)
         (Classifier.split_aux s cur in_sep).
Proof.
  revert cur in_sep. induction s as [|c s IH]; intros cur in_sep Hcur; simpl.
  - now constructor.
  - destruct (Classifier.is_token_char c) eqn:Hc.
    + apply IH. rewrite all_chars_app, Hcur. simpl. now rewrite Hc.
    + destruct in_sep.
      * now apply IH.
      * constructor; [exact Hcur|]. now apply IH.
Qed.

(** X1. Every token of a file name is non-empty and made of the
    characters a-z and 0-9 only. *)
Theorem tokens_lowercase_alnum (filename t : string) :
  t ∈ Classifier.tokens_from_filename filename ->
  t <> "" /\ all_chars Classifier.is_token_char t = true.
Proof.
  unfold Classifier.tokens_from_filename. intros H.
  apply elem_of_list_to_set in H. apply list_elem_of_filter in H as [Hne Hin].
  split.
  - intros ->. discriminate.
  - pose proof (split_aux_token_chars
                  (PyStr.lower (fst (Classifier.splitext filename))) "" false eq_refl) as HF.
    rewrite list.Forall_forall in HF. now apply HF.
Qed.

Lemma tokens_lowercase_alnum_witness :
  "woman07" <> "" /\ all_chars Classifier.is_token_char "woman07" = true.
Proof.
  apply (tokens_lowercase_alnum "AI_Woman07_Happy.jpg" "woman07").
  apply (bool_decide_eq_true_1 _). vm_compute. reflexivity.
Defined.

Lemma lower_char_eqb (d c : ascii) :
  PyStr.is_upper d = false ->
  (forall u, PyStr.is_upper u = true -> PyStr.lower_char u <> d) ->
  Ascii.eqb d (PyStr.lower_char c) = Ascii.eqb d c.
Proof.
  intros Hd Hpre. unfold PyStr.lower_char at 1.
  destruct (PyStr.is_upper c) eqn:Hc; [|reflexivity].
  destruct (Ascii.eqb_spec d c) as [->|Hne]; [congruence|].
  apply Ascii.eqb_neq. intros E. apply (Hpre c Hc).
  unfold PyStr.lower_char. now rewrite Hc.
Qed.

Lemma lower_char_not (d : ascii) :
  (nat_of_ascii d < 97 \/ 122 < nat_of_ascii d)%nat ->
  forall u, PyStr.is_upper u = true -> PyStr.lower_char u <> d.
Proof.
  intros Hd u Hu E. unfold PyStr.lower_char in E. rewrite Hu in E.
  unfold PyStr.is_upper in Hu. apply andb_true_iff in Hu as [H1 H2].
  apply Nat.leb_le in H1, H2. subst d.
  rewrite nat_ascii_embedding in Hd; lia.
Qed.

Lemma eqb_lower_char_slash (c : ascii) :
  Ascii.eqb "/" (PyStr.lower_char c) = Ascii.eqb "/" c.
Proof.
  apply lower_char_eqb; [reflexivity|]. apply lower_char_not.
  left. apply Nat.ltb_lt. reflexivity.
Qed.

Lemma eqb_lower_char_dot (c : ascii) :
  Ascii.eqb "." (PyStr.lower_char c) = Ascii.eqb "." c.
Proof.
  apply lower_char_eqb; [reflexivity|]. apply lower_char_not.
  left. apply Nat.ltb_lt. reflexivity.
Qed.

Lemma rfind_from_lower (d : ascii) (s : string) (i last : Z) :
  (forall c, Ascii.eqb d (PyStr.lower_char c) = Ascii.eqb d c) ->
  Classifier.rfind_from d (PyStr.lower s) i last = Classifier.rfind_from d s i last.
Proof.
  intros Hd. revert i last. induction s as [|c s IH]; intros i last; simpl; [reflexivity|].
  now rewrite Hd, IH.
Qed.

Lemma has_non_dot_lower (s : string) :
  Classifier.has_non_dot (PyStr.lower s) = Classifier.has_non_dot s.
Proof.
  induction s as [|c s IH]; simpl; [reflexivity|].
  rewrite IH. f_equal. f_equal.
  rewrite !(Ascii.eqb_sym _ "."). apply eqb_lower_char_dot.
Qed.

Lemma substring_lower (n m : nat) (s : string) :
  substring n m (PyStr.lower s) = PyStr.lower (substring n m s).
Proof.
  revert n m. induction s as [|c s IH]; intros [|n] [|m]; simpl; try reflexivity.
  - now rewrite IH.
  - apply IH.
  - apply IH.
Qed.

Lemma length_lower (s : string) : String.length (PyStr.lower s) = String.length s.
Proof. induction s as [|c s IH]; simpl; [reflexivity | now rewrite IH]. Qed.

Lemma is_upper_lower_char (c : ascii) : PyStr.is_upper (PyStr.lower_char c) = false.
Proof.
  unfold PyStr.lower_char. destruct (PyStr.is_upper c) eqn:Hc; [|exact Hc].
  unfold PyStr.is_upper in *.
  apply andb_true_iff in Hc as [H1 H2]. apply Nat.leb_le in H1, H2.
  rewrite nat_ascii_embedding by lia.
  apply andb_false_iff. right. apply Nat.leb_gt. lia.
Qed.

Lemma lower_char_idem (c : ascii) : PyStr.lower_char (PyStr.lower_char c) = PyStr.lower_char c.
Proof. unfold PyStr.lower_char at 1. now rewrite is_upper_lower_char. Qed.

Lemma lower_idem (s : string) : PyStr.lower (PyStr.lower s) = PyStr.lower s.
Proof.
  induction s as [|c s IH]; simpl; [reflexivity|]. now rewrite lower_char_idem, IH.
Qed.

Lemma splitext_lower (p : string) :
  Classifier.splitext (PyStr.lower p) =
  (PyStr.lower (fst (Classifier.splitext p)), PyStr.lower (snd (Classifier.splitext p))).
Proof.
  unfold Classifier.splitext, Classifier.rfind.
  rewrite !rfind_from_lower by (apply eqb_lower_char_slash || apply eqb_lower_char_dot).
  destruct (_ <? _)%Z; [|reflexivity].
  rewrite substring_lower, has_non_dot_lower.
  destruct (Classifier.has_non_dot _); [|reflexivity].
  now rewrite !substring_lower, length_lower.
Qed.

(** X2. The letter case of a file name does not matter to its tokens,
    hence to its three labels. *)
Theorem tokens_case_insensitive (filename : string) :
  Classifier.tokens_from_filename (PyStr.lower filename) =
  Classifier.tokens_from_filename filename /\
  tl (Classifier.manifest_row (PyStr.lower filename)) =
  tl (Classifier.manifest_row filename).
Proof.
  assert (H : Classifier.tokens_from_filename (PyStr.lower filename) =
              Classifier.tokens_from_filename filename).
  { unfold Classifier.tokens_from_filename.
    rewrite splitext_lower. cbn [fst]. now rewrite lower_idem. }
  split; [exact H|]. unfold Classifier.manifest_row. simpl. now rewrite H.
Qed.

Lemma classify_source_range (toks : gset string) :
  Classifier.classify_source toks ∈ ["ai"; "non-ai"].
Proof.
  unfold Classifier.classify_source. destruct (bool_decide _); set_solver.
Qed.

Lemma classify_gender_range (toks : gset string) :
  Classifier.classify_gender toks ∈ ["male"; "female"; "unknown"].
Proof.
  unfold Classifier.classify_gender.
  repeat (match goal with |- context [if ?b then _ else _] => destruct b end);
    set_solver.
Qed.

Lemma classify_emotion_range (toks : gset string) :
  Classifier.classify_emotion toks ∈ ["happy"; "sad"; "unknown"].
Proof.
  unfold Classifier.classify_emotion.
  repeat (match goal with |- context [if ?b then _ else _] => destruct b end);
    set_solver.
Qed.

(** X3. Every data row of the manifest is a well-formed record: four
    fields, the name of an image file of the directory followed by a
    source among ai, non-ai, a gender among male, female, unknown and an
    emotion among happy, sad, unknown. *)
Theorem manifest_rows_valid (listing : list string) (row : list string) :
  row ∈ Classifier.manifest_rows listing ->
  exists f src g e : string,
    row = [f; src; g; e] /\
    f ∈ listing /\ Classifier.is_image f = true /\
    src ∈ ["ai"; "non-ai"] /\
    g ∈ ["male"; "female"; "unknown"] /\
    e ∈ ["happy"; "sad"; "unknown"].
Proof.
  unfold Classifier.manifest_rows. intros H.
  apply list_elem_of_In, in_map_iff in H as [f [Hrow Hf]].
  apply list_elem_of_In, list_elem_of_filter in Hf as [Himg Hin].
  exists f, (Classifier.classify_source (Classifier.tokens_from_filename f)),
    (Classifier.classify_gender (Classifier.tokens_from_filename f)),
    (Classifier.classify_emotion (Classifier.tokens_from_filename f)).
  split; [now rewrite <- Hrow|]. split.
  - rewrite <- (sorted_perm listing). exact Hin.
  - split; [exact Himg|].
    split; [apply classify_source_range|].
    split; [apply classify_gender_range | apply classify_emotion_range].
Qed.

Lemma manifest_rows_valid_witness :
  exists f src g e : string,
    ["a.jpg"; "non-ai"; "unknown"; "unknown"] = [f; src; g; e] /\
    f ∈ ["b.txt"; "a.jpg"] /\ Classifier.is_image f = true /\
    src ∈ ["ai"; "non-ai"] /\
    g ∈ ["male"; "female"; "unknown"] /\
    e ∈ ["happy"; "sad"; "unknown"].
Proof.
  apply (manifest_rows_valid ["b.txt"; "a.jpg"] ["a.jpg"; "non-ai"; "unknown"; "unknown"]).
  vm_compute. apply list_elem_of_here.
Defined.

Lemma filter_idem {A : Type} (P : A -> Prop) `{!forall x, Decision (P x)} (l : list A) :
  filter P (filter P l) = filter P l.
Proof.
  induction l as [|x r IH]; [reflexivity|].
  rewrite filter_cons. destruct (decide (P x)) as [Hx|Hx]; [|exact IH].
  rewrite filter_cons. destruct (decide (P x)); [|contradiction]. now rewrite IH.
Qed.

Lemma filter_sorted_commute (P : string -> bool) (l : list string) :
  filter (fun f => P f = true) (Classifier.sorted l) =
  Classifier.sorted (filter (fun f => P f = true) l).
Proof.
  apply (StronglySorted_unique name_le).
  - apply filter_strongly, sorted_strongly.
  - apply sorted_strongly.
  - etransitivity; [apply filter_Permutation, sorted_perm | symmetry; apply sorted_perm].
Qed.

(** X4. Names that are not image names do not influence the manifest:
    the output is the one for the image names alone, with as many data
    rows as there are image names in the directory. *)
Theorem non_images_ignored (listing : list string) :
  Classifier.main (Some listing) =
  Classifier.main (Some (filter (fun f => Classifier.is_image f = true) listing)) /\
  length (Classifier.manifest_rows listing) =
  length (filter (fun f => Classifier.is_image f = true) listing).
Proof.
  split.
  - unfold Classifier.main, Classifier.manifest_rows.
    now rewrite !filter_sorted_commute, filter_idem.
  - unfold Classifier.manifest_rows. rewrite length_map.
    apply Permutation_length, filter_Permutation, sorted_perm.
Qed.

(** ** The session runner: loading and selecting trials *)

Lemma in_list_iff (k : string) (l : list string) : Runner.in_list k l = true <-> k ∈ l.
Proof.
  unfold Runner.in_list. rewrite existsb_exists. split.
  - intros [x [Hin Hx]]. apply String.eqb_eq in Hx. subst. now apply list_elem_of_In.
  - intros H. exists k. split; [now apply list_elem_of_In | apply String.eqb_refl].
Qed.

Lemma in_list_happy_sad (k : string) :
  Runner.in_list k ["happy"; "sad"] = true <-> k = "happy" \/ k = "sad".
Proof.
  unfold Runner.in_list. simpl. rewrite orb_false_r, orb_true_iff, !String.eqb_eq.
  reflexivity.
Qed.

Lemma usable_row_Some (row r : gmap string string) :
  Runner.usable_row row = Some r <->
  (norm_emotion row = "happy" \/ norm_emotion row = "sad") /\
  r = <["emotion" := norm_emotion row]> row.
Proof.
  unfold Runner.usable_row. fold (norm_emotion row).
  destruct (Runner.in_list (norm_emotion row) ["happy"; "sad"]) eqn:E.
  - apply in_list_happy_sad in E. split.
    + intros [= <-]. split; [exact E | reflexivity].
    + intros [_ ->]. reflexivity.
  - split; [discriminate|]. intros [H _].
    apply in_list_happy_sad in H. congruence.
Qed.

(** X5. Loading the trials: a missing manifest raises
    FileNotFoundError; a manifest without any row whose emotion reads
    happy or sad (after trimming and lower-casing) raises ValueError, and
    only such a manifest does; otherwise the loaded rows are, in order,
    the usable rows with their emotion normalised, so there is at least
    one and each has emotion happy or sad. *)
Theorem load_trials_spec (all : list (gmap string string)) :
  Runner.load_trials_from_csv None = Raised FileNotFoundError /\
  (Runner.load_trials_from_csv (Some all) = Raised ValueError <->
   forall row, row ∈ all -> norm_emotion row <> "happy" /\ norm_emotion row <> "sad") /\
  (forall rows, Runner.load_trials_from_csv (Some all) = Done rows ->
     rows <> [] /\
     rows = (fun row => <["emotion" := norm_emotion row]> row)
            <$> filter (fun row => norm_emotion row = "happy" \/ norm_emotion row = "sad") all /\
     Forall (fun r => r !! "emotion" = Some "happy" \/ r !! "emotion" = Some "sad") rows).
Proof.
  assert (Homap : omap Runner.usable_row all =
            (fun row => <["emotion" := norm_emotion row]> row)
            <$> filter (fun row => norm_emotion row = "happy" \/ norm_emotion row = "sad") all).
  { induction all as [|row r IH]; [reflexivity|].
    rewrite filter_cons. cbn [omap list_omap]. fold (omap Runner.usable_row r). rewrite IH.
    destruct (Runner.usable_row row) as [r'|] eqn:E.
    - apply usable_row_Some in E as [Hemo ->].
      destruct (decide _); [reflexivity | contradiction].
    - destruct (decide _) as [Hemo|]; [|reflexivity].
      assert (Hs : Runner.usable_row row = Some (<["emotion" := norm_emotion row]> row))
        by (apply usable_row_Some; auto).
      congruence. }
  split; [reflexivity|]. unfold Runner.load_trials_from_csv. rewrite Homap. split.
  - split.
    + intros H row Hin.
      destruct (filter _ all) as [|x l] eqn:E; [|discriminate].
      assert (Hno : row ∉ filter (fun row => norm_emotion row = "happy" \/ norm_emotion row = "sad") all)
        by (rewrite E; apply not_elem_of_nil).
      rewrite list_elem_of_filter in Hno. tauto.
    + intros H. destruct (filter _ all) as [|x l] eqn:E; [reflexivity|].
      assert (Hx : x ∈ filter (fun row => norm_emotion row = "happy" \/ norm_emotion row = "sad") all)
        by (rewrite E; apply list_elem_of_here).
      apply list_elem_of_filter in Hx as [Hemo Hin]. destruct (H x Hin). tauto.
  - intros rows H.
    assert (Hrows : rows = (fun row => <["emotion" := norm_emotion row]> row)
            <$> filter (fun row => norm_emotion row = "happy" \/ norm_emotion row = "sad") all).
    { destruct (_ <$> _) as [|x l]; [discriminate | now inversion H]. }
    split; [|split; [exact Hrows|]].
    + destruct (_ <$> _) as [|x l]; [discriminate|]. inversion H. discriminate.
    + rewrite Hrows. apply list.Forall_forall. intros r Hr.
      apply list_elem_of_fmap in Hr as [row [-> Hrow]].
      apply list_elem_of_filter in Hrow as [Hemo _].
      rewrite lookup_insert_eq. destruct Hemo as [-> | ->]; auto.
Qed.

(** ** The session runner: the results path *)

Lemma keep_safe_all (s : string) :
  all_chars Runner.safe_char (Runner.keep_safe s) = true.
Proof.
  induction s as [|c s IH]; simpl; [reflexivity|].
  destruct (Runner.safe_char c) eqn:Hc; [|exact IH]. simpl. now rewrite Hc.
Qed.

Lemma keep_safe_id (s : string) :
  all_chars Runner.safe_char s = true -> Runner.keep_safe s = s.
Proof.
  induction s as [|c s IH]; simpl; [reflexivity|].
  intros H. apply andb_true_iff in H as [Hc Hs]. rewrite Hc. now rewrite IH.
Qed.

Lemma all_chars_occurs (p : ascii -> bool) (x : string) (c : ascii) :
  all_chars p x = true -> occurs (String c "") x -> p c = true.
Proof.
  intros H [a [b ->]]. rewrite all_chars_app in H.
  apply andb_true_iff in H as [_ H]. simpl in H.
  now apply andb_true_iff in H as [H _].
Qed.

(** X6. A participant or session name is sanitised to a non-empty name
    made of letters, digits, hyphens and underscores only; it therefore
    holds no path separator and no dot, a name that is already clean is
    kept as it is, and sanitising twice changes nothing more. *)
Theorem safe_name_spec (s default : string) :
  default <> "" ->
  all_chars Runner.safe_char default = true ->
  Runner.safe_name s default <> "" /\
  all_chars Runner.safe_char (Runner.safe_name s default) = true /\
  ~ occurs "/" (Runner.safe_name s default) /\
  ~ occurs "." (Runner.safe_name s default) /\
  (s <> "" -> all_chars Runner.safe_char s = true -> Runner.safe_name s default = s) /\
  (Runner.keep_safe s = "" -> Runner.safe_name s default = default) /\
  Runner.safe_name (Runner.safe_name s default) default = Runner.safe_name s default.
Proof.
  intros Hd Hsafe.
  assert (Hall : all_chars Runner.safe_char (Runner.safe_name s default) = true).
  { unfold Runner.safe_name. pose proof (keep_safe_all s) as H.
    destruct (Runner.keep_safe s); [exact Hsafe | exact H]. }
  assert (Hne : Runner.safe_name s default <> "").
  { unfold Runner.safe_name. destruct (Runner.keep_safe s); [exact Hd | discriminate]. }
  split; [exact Hne|]. split; [exact Hall|].
  split; [|split; [|split; [|split]]].
  - intros H. now pose proof (all_chars_occurs _ _ _ Hall H).
  - intros H. now pose proof (all_chars_occurs _ _ _ Hall H).
  - intros Hs Hss. unfold Runner.safe_name. rewrite (keep_safe_id s Hss).
    destruct s; [contradiction | reflexivity].
  - intros H. unfold Runner.safe_name. now rewrite H.
  - unfold Runner.safe_name at 1. rewrite (keep_safe_id _ Hall).
    destruct (Runner.safe_name s default); [contradiction | reflexivity].
Qed.

Lemma safe_name_spec_witness :
  Runner.safe_name "../x y" "anon" <> "" /\
  all_chars Runner.safe_char (Runner.safe_name "../x y" "anon") = true /\
  ~ occurs "/" (Runner.safe_name "../x y" "anon") /\
  ~ occurs "." (Runner.safe_name "../x y" "anon") /\
  ("../x y" <> "" -> all_chars Runner.safe_char "../x y" = true ->
   Runner.safe_name "../x y" "anon" = "../x y") /\
  (Runner.keep_safe "../x y" = "" -> Runner.safe_name "../x y" "anon" = "anon") /\
  Runner.safe_name (Runner.safe_name "../x y" "anon") "anon" = Runner.safe_name "../x y" "anon".
Proof.
  apply (safe_name_spec "../x y" "anon").
  - discriminate.
  - reflexivity.
Defined.

Lemma all_chars_rev (p : ascii -> bool) (s acc : string) :
  all_chars p s = true -> all_chars p acc = true ->
  all_chars p (PyStr.rev_str s acc) = true.
Proof.
  revert acc. induction s as [|c s IH]; intros acc Hs Hacc; simpl; [exact Hacc|].
  simpl in Hs. apply andb_true_iff in Hs as [Hc Hs].
  apply IH; [exact Hs|]. simpl. now rewrite Hc.
Qed.

Lemma rev_str_nonempty (s : string) : s <> "" -> PyStr.rev_str s "" <> "".
Proof.
  destruct s as [|c s]; [contradiction|]. intros _. simpl.
  rewrite rev_str_acc. destruct (PyStr.rev_str s ""); discriminate.
Qed.

Lemma prefix_slash_safe (c : ascii) (r : string) :
  Runner.safe_char c = true -> String.prefix "/" (String c r) = false.
Proof.
  intros Hc. apply not_true_is_false. intros H.
  apply prefix_starts in H as [t Ht]. simpl in Ht. inversion Ht. subst c. discriminate.
Qed.

(** A path that ends in a clean, non-empty name does not end in a slash. *)
Lemma endswith_slash_safe (a b : string) :
  b <> "" -> all_chars Runner.safe_char b = true ->
  PyStr.endswith (a +:+ b) "/" = false.
Proof.
  intros Hb Hsafe. unfold PyStr.endswith. rewrite rev_str_app.
  pose proof (rev_str_nonempty b Hb) as Hne.
  pose proof (all_chars_rev Runner.safe_char b "" Hsafe eq_refl) as Hr.
  destruct (PyStr.rev_str b "") as [|c r]; [contradiction|].
  simpl in Hr. apply andb_true_iff in Hr as [Hc _].
  change (PyStr.rev_str "/" "") with "/".
  change (String c r +:+ PyStr.rev_str a "") with (String c (r +:+ PyStr.rev_str a "")).
  now apply prefix_slash_safe.
Qed.

Lemma path_join_plain (a b : string) :
  a <> "" -> PyStr.endswith a "/" = false -> PyStr.startswith b "/" = false ->
  Runner.path_join a b = a +:+ "/" +:+ b.
Proof.
  intros Ha He Hs. unfold Runner.path_join. rewrite Hs.
  destruct a; [contradiction|]. now rewrite He.
Qed.

Lemma startswith_slash_safe (b : string) :
  b <> "" -> all_chars Runner.safe_char b = true -> PyStr.startswith b "/" = false.
Proof.
  destruct b as [|c b]; [contradiction|]. intros _ H. simpl in H.
  apply andb_true_iff in H as [Hc _]. unfold PyStr.startswith.
  now apply prefix_slash_safe.
Qed.

Lemma append_nonempty_l (a b : string) : a <> "" -> a +:+ b <> "".
Proof. destruct a; [contradiction | discriminate]. Qed.

Lemma safe_name_nonempty (s default : string) :
  default <> "" -> Runner.safe_name s default <> "".
Proof.
  intros Hd. unfold Runner.safe_name. destruct (Runner.keep_safe s); [exact Hd | discriminate].
Qed.

Lemma safe_name_all (s default : string) :
  all_chars Runner.safe_char default = true ->
  all_chars Runner.safe_char (Runner.safe_name s default) = true.
Proof.
  intros Hd. unfold Runner.safe_name. pose proof (keep_safe_all s) as H.
  destruct (Runner.keep_safe s); [exact Hd | exact H].
Qed.

Lemma endswith_slash_safe_eq (x a b : string) :
  x = a +:+ b -> b <> "" -> all_chars Runner.safe_char b = true ->
  PyStr.endswith x "/" = false.
Proof. intros ->. apply endswith_slash_safe. Qed.

(** X7. The results file of a run lies under the results directory, in
    the folders sub-P, ses-S and the run stamp, and is named
    sub-P_ses-S_stamp, P and S being the sanitised participant and
    session names: whatever is typed in the dialog, the path has exactly
    these four components below the results directory. *)
Theorem results_path_shape (results_dir run_stamp participant session : string) :
  results_dir <> "" ->
  PyStr.endswith results_dir "/" = false ->
  run_stamp <> "" ->
  all_chars Runner.safe_char run_stamp = true ->
  Runner.ensure_results_path results_dir run_stamp participant session =
    results_dir
    +:+ "/sub-" +:+ Runner.safe_name participant "anon"
    +:+ "/ses-" +:+ Runner.safe_name session "001"
    +:+ "/" +:+ run_stamp
    +:+ "/sub-" +:+ Runner.safe_name participant "anon"
    +:+ "_ses-" +:+ Runner.safe_name session "001"
    +:+ "_" +:+ run_stamp.
Proof.
  intros Hdir Hend Hstamp Hsafe. unfold Runner.ensure_results_path.
  set (P := Runner.safe_name participant "anon").
  set (S := Runner.safe_name session "001").
  assert (HP : P <> "") by (apply safe_name_nonempty; discriminate).
  assert (HS : S <> "") by (apply safe_name_nonempty; discriminate).
  assert (HPs : all_chars Runner.safe_char P = true) by (apply safe_name_all; reflexivity).
  assert (HSs : all_chars Runner.safe_char S = true) by (apply safe_name_all; reflexivity).
  rewrite (path_join_plain results_dir ("sub-" +:+ P)).
  2: assumption.
  2: assumption.
  2: reflexivity.
  rewrite (path_join_plain _ ("ses-" +:+ S)).
  2: now apply append_nonempty_l.
  2: { apply (endswith_slash_safe_eq _ (results_dir +:+ "/sub-") P); try assumption.
       rewrite !append_assoc. reflexivity. }
  2: reflexivity.
  rewrite (path_join_plain _ run_stamp).
  2: now apply append_nonempty_l, append_nonempty_l.
  2: { apply (endswith_slash_safe_eq _ (results_dir +:+ "/sub-" +:+ P +:+ "/ses-") S);
         try assumption.
       rewrite !append_assoc. reflexivity. }
  2: now apply startswith_slash_safe.
  rewrite path_join_plain.
  2: now apply append_nonempty_l, append_nonempty_l, append_nonempty_l.
  2: { apply (endswith_slash_safe_eq _
                (results_dir +:+ "/sub-" +:+ P +:+ "/ses-" +:+ S +:+ "/") run_stamp);
         try assumption.
       rewrite !append_assoc. reflexivity. }
  2: reflexivity.
  rewrite !append_assoc. reflexivity.
Qed.

Lemma results_path_shape_witness :
  Runner.ensure_results_path "/home/lab/exp/results" "20240131_101500" "../07" "" =
    "/home/lab/exp/results"
    +:+ "/sub-" +:+ Runner.safe_name "../07" "anon"
    +:+ "/ses-" +:+ Runner.safe_name "" "001"
    +:+ "/" +:+ "20240131_101500"
    +:+ "/sub-" +:+ Runner.safe_name "../07" "anon"
    +:+ "_ses-" +:+ Runner.safe_name "" "001"
    +:+ "_" +:+ "20240131_101500".
Proof.
  apply (results_path_shape "/home/lab/exp/results" "20240131_101500" "../07" "").
  - discriminate.
  - reflexivity.
  - discriminate.
  - reflexivity.
Defined.

(** ** The session runner: the trials of a run *)

(** X8. The trials of a run: with fewer than 79 usable rows the run is
    refused with ValueError; otherwise exactly 79 rows are used, all of
    them rows of the manifest, and no file name is used twice when the
    manifest names no file twice. *)
Theorem select_trials_spec (all_rows shuffled : list (gmap string string)) :
  Permutation shuffled all_rows ->
  ((length all_rows < 79)%nat -> Runner.select_trials shuffled = Raised ValueError) /\
  ((79 <= length all_rows)%nat ->
   exists trials,
     Runner.select_trials shuffled = Done trials /\
     length trials = 79%nat /\
     (forall r, r ∈ trials -> r ∈ all_rows) /\
     (NoDup ((fun r => Runner.get r "filename") <$> all_rows) ->
      NoDup ((fun r => Runner.get r "filename") <$> trials))).
Proof.
  intros Hperm. pose proof (Permutation_length Hperm) as Hlen.
  unfold Runner.select_trials, Runner.N_TRIALS. split.
  - intros H. apply Nat.ltb_lt in H. rewrite Hlen. now rewrite H.
  - intros H. assert (Hge : (length shuffled <? 79)%nat = false)
      by (apply Nat.ltb_ge; lia).
    rewrite Hge. eexists. split; [reflexivity|]. split; [|split].
    + rewrite length_take. lia.
    + intros r Hr. rewrite <- Hperm.
      exact (subseteq_take _ _ _ Hr).
    + intros Hnd. rewrite <- Hperm in Hnd.
      eapply sublist_NoDup; [exact Hnd|].
      rewrite fmap_take. apply sublist_take.
Qed.

Lemma select_trials_spec_witness :
  exists trials,
    Runner.select_trials (rev (manifest_of 80)) = Done trials /\
    length trials = 79%nat /\
    (forall r, r ∈ trials -> r ∈ manifest_of 80) /\
    NoDup ((fun r => Runner.get r "filename") <$> trials) /\
    Runner.select_trials (rev (manifest_of 78)) = Raised ValueError.
Proof.
  destruct (select_trials_spec (manifest_of 80) (rev (manifest_of 80))) as [_ H].
  { apply Permutation_sym, Permutation_rev. }
  destruct H as [trials [H1 [H2 [H3 H4]]]].
  { unfold manifest_of. rewrite length_map, length_seq. lia. }
  exists trials. split; [exact H1|]. split; [exact H2|]. split; [exact H3|]. split.
  - apply H4. apply (bool_decide_eq_true_1 _). vm_compute. reflexivity.
  - destruct (select_trials_spec (manifest_of 78) (rev (manifest_of 78))) as [H _].
    { apply Permutation_sym, Permutation_rev. }
    apply H. unfold manifest_of. rewrite length_map, length_seq. lia.
Defined.

(** ** The session runner: the trial loop *)

Ltac entry_lookups :=
  unfold Runner.addData, Runner.nextEntry; simpl;
  repeat split; intros; simplify_map_eq; eauto.

(** One trial either ends the loop without logging anything, or closes
    exactly one entry that has all the trial fields and whose response
    fields are consistent. *)
Lemma trial_cases (t_idx : Z) (row : gmap string string) (env : Runner.trial_env)
    (h : Runner.handler) :
  Runner.trial t_idx row env h = (h, Runner.Break) \/
  exists e,
    Runner.trial t_idx row env h =
      ({| Runner.entries := Runner.entries h ++ [e]; Runner.thisEntry := ∅ |},
       Runner.Continue) /\
    has_trial_fields e /\ entry_consistent e /\
    e !! "trial_index" = Some (Runner.VInt t_idx).
Proof.
  unfold Runner.trial.
  destruct (Runner.quit_pressed env); [now left|].
  destruct (Runner.file_exists env); simpl negb; cbv iota.
  - unfold Runner.response.
    destruct (Runner.keys env) as [[|[k t0] rest]|].
    + right. eexists. split; [reflexivity|].
      split; [|split].
      * intros f Hf. unfold trial_fields in Hf.
        repeat (apply elem_of_cons in Hf as [->|Hf]);
          [| | | | | |now apply elem_of_nil in Hf]; entry_lookups.
      * unfold entry_consistent. entry_lookups.
      * entry_lookups.
    + destruct (Runner.in_list k Runner.QUIT_KEYS) eqn:Hq; [now left|].
      right. eexists. split; [reflexivity|].
      split; [|split].
      * intros f Hf. unfold trial_fields in Hf.
        repeat (apply elem_of_cons in Hf as [->|Hf]);
          [| | | | | |now apply elem_of_nil in Hf]; entry_lookups.
      * unfold entry_consistent. entry_lookups.
      * entry_lookups.
    + right. eexists. split; [reflexivity|].
      split; [|split].
      * intros f Hf. unfold trial_fields in Hf.
        repeat (apply elem_of_cons in Hf as [->|Hf]);
          [| | | | | |now apply elem_of_nil in Hf]; entry_lookups.
      * unfold entry_consistent. entry_lookups.
      * entry_lookups.
  - right. eexists. split; [reflexivity|].
    split; [|split].
    + intros f Hf. unfold trial_fields in Hf.
      repeat (apply elem_of_cons in Hf as [->|Hf]);
        [| | | | | |now apply elem_of_nil in Hf]; entry_lookups.
    + unfold entry_consistent. entry_lookups.
    + entry_lookups.
Qed.

Lemma trial_loop_entries (rows : list (gmap string string)) :
  forall (t_idx : Z) (envs : list Runner.trial_env) (h : Runner.handler),
  exists new,
    Runner.entries (Runner.trial_loop t_idx rows envs h) = Runner.entries h ++ new /\
    (length new <= length rows)%nat /\ (length new <= length envs)%nat /\
    Forall (fun e => has_trial_fields e /\ entry_consistent e) new.
Proof.
  induction rows as [|row rows IH]; intros t_idx envs h.
  - exists []. simpl. rewrite app_nil_r. repeat split; try lia. constructor.
  - destruct envs as [|env envs].
    + exists []. simpl. rewrite app_nil_r. repeat split; try lia. constructor.
    + simpl. destruct (trial_cases t_idx row env h) as [Hb | [e [He [Hf [Hc _]]]]].
      * rewrite Hb. exists []. rewrite app_nil_r. simpl. repeat split; try lia. constructor.
      * rewrite He.
        destruct (IH (t_idx + 1)%Z envs
                    {| Runner.entries := Runner.entries h ++ [e]; Runner.thisEntry := ∅ |})
          as [new [Hn [Hl1 [Hl2 HF]]]].
        exists (e :: new). rewrite Hn. simpl. rewrite <- app_assoc. simpl.
        repeat split; try lia. constructor; [now split | exact HF].
Qed.

(** X9. The trial loop only appends to the log: the entries closed
    before it stay as they are, at most one entry is added per trial,
    and every added entry carries the fields trial_index, filename,
    missing_file, resp_key, rt and correct. *)
Theorem trial_loop_appends (t_idx : Z) (rows : list (gmap string string))
    (envs : list Runner.trial_env) (h : Runner.handler) :
  exists new,
    Runner.entries (Runner.trial_loop t_idx rows envs h) = Runner.entries h ++ new /\
    (length new <= length rows)%nat /\
    Forall has_trial_fields new.
Proof.
  destruct (trial_loop_entries rows t_idx envs h) as [new [Hn [Hl [_ HF]]]].
  exists new. split; [exact Hn|]. split; [exact Hl|].
  eapply list.Forall_impl; [exact HF|]. now intros e [H _].
Qed.

(** X10. In every entry the trial loop logs, the response fields are
    consistent: a missing-file trial has blank resp_key, rt and correct;
    a reaction time is a number only on a trial whose file was shown and
    whose key was not a quit key; and a shown trial with a blank
    reaction time is a timeout, logged with blank key and correct =
    False. *)
Theorem trial_loop_consistent (t_idx : Z) (rows : list (gmap string string))
    (envs : list Runner.trial_env) (h : Runner.handler) :
  exists new,
    Runner.entries (Runner.trial_loop t_idx rows envs h) = Runner.entries h ++ new /\
    Forall entry_consistent new.
Proof.
  destruct (trial_loop_entries rows t_idx envs h) as [new [Hn [_ [_ HF]]]].
  exists new. split; [exact Hn|].
  eapply list.Forall_impl; [exact HF|]. now intros e [_ H].
Qed.

(** X11. A quit key ends the run at once: whether it is seen before the
    trial starts or is the response to a shown stimulus, neither that
    trial nor any later one is logged. *)
Theorem quit_ends_run (t_idx : Z) (row : gmap string string)
    (rows : list (gmap string string)) (env : Runner.trial_env)
    (envs : list Runner.trial_env) (h : Runner.handler) :
  Runner.quit_pressed env = true \/
  (Runner.file_exists env = true /\
   exists k t rest, Runner.keys env = Some ((k, t) :: rest) /\ k ∈ Runner.QUIT_KEYS) ->
  Runner.trial_loop t_idx (row :: rows) (env :: envs) h = h.
Proof.
  intros H. simpl. unfold Runner.trial.
  destruct (Runner.quit_pressed env); [reflexivity|].
  destruct H as [H | [Hf [k [t [rest [Hk Hq]]]]]]; [discriminate|].
  rewrite Hf. simpl negb. cbv iota. unfold Runner.response. rewrite Hk.
  apply in_list_iff in Hq. now rewrite Hq.
Qed.

Lemma quit_ends_run_witness :
  Runner.trial_loop 1
    [{["filename" := "a.jpg"; "emotion" := "happy"]};
     {["filename" := "b.jpg"; "emotion" := "sad"]}]
    [{| Runner.quit_pressed := false; Runner.file_exists := true;
        Runner.keys := Some [("escape", 1 # 2)] |};
     {| Runner.quit_pressed := false; Runner.file_exists := true;
        Runner.keys := Some [("left", 1 # 2)] |}]
    {| Runner.entries := []; Runner.thisEntry := ∅ |} =
  {| Runner.entries := []; Runner.thisEntry := ∅ |}.
Proof.
  apply (quit_ends_run 1 {["filename" := "a.jpg"; "emotion" := "happy"]}
           [{["filename" := "b.jpg"; "emotion" := "sad"]}]
           {| Runner.quit_pressed := false; Runner.file_exists := true;
              Runner.keys := Some [("escape", 1 # 2)] |}
           [{| Runner.quit_pressed := false; Runner.file_exists := true;
               Runner.keys := Some [("left", 1 # 2)] |}]
           {| Runner.entries := []; Runner.thisEntry := ∅ |}).
  right. split; [reflexivity|].
  exists "escape", (1 # 2), []. split; [reflexivity | apply list_elem_of_here].
Defined.

(** X12. A key response to a shown stimulus is scored on its first key:
    the entry holds that key and its time stamp, and correct is True
    exactly when the key is right for a happy face, left for a sad
    face. *)
Theorem response_scored (t_idx : Z) (row : gmap string string) (env : Runner.trial_env)
    (h : Runner.handler) (k : string) (t : Q) (rest : list (string * Q)) :
  Runner.quit_pressed env = false ->
  Runner.file_exists env = true ->
  Runner.keys env = Some ((k, t) :: rest) ->
  k ∉ Runner.QUIT_KEYS ->
  norm_emotion row = "happy" \/ norm_emotion row = "sad" ->
  exists e : gmap string Runner.value,
    Runner.trial t_idx row env h =
      ({| Runner.entries := Runner.entries h ++ [e]; Runner.thisEntry := ∅ |},
       Runner.Continue) /\
    e !! "resp_key" = Some (Runner.VStr k) /\
    e !! "rt" = Some (Runner.VFloat t) /\
    e !! "emotion" = Some (Runner.VStr (norm_emotion row)) /\
    e !! "correct" =
      Some (Runner.VBool (if String.eqb (norm_emotion row) "happy"
                          then String.eqb k "right" else String.eqb k "left")).
Proof.
  intros Hq Hf Hk Hnq Hemo. unfold Runner.trial. rewrite Hq, Hf. simpl negb. cbv iota.
  fold (norm_emotion row). unfold Runner.response. rewrite Hk.
  assert (Hq' : Runner.in_list k Runner.QUIT_KEYS = false).
  { apply not_true_is_false. now rewrite in_list_iff. }
  rewrite Hq'. eexists. split; [reflexivity|].
  unfold Runner.addData, Runner.nextEntry; simpl.
  repeat split; simplify_map_eq; try reflexivity.
  destruct Hemo as [-> | ->]; reflexivity.
Qed.

Lemma response_scored_witness :
  exists e : gmap string Runner.value,
    Runner.trial 3 {["filename" := "a.jpg"; "emotion" := " Sad"]}
      {| Runner.quit_pressed := false; Runner.file_exists := true;
         Runner.keys := Some [("left", 3 # 4); ("right", 1%Q)] |}
      {| Runner.entries := []; Runner.thisEntry := ∅ |} =
      ({| Runner.entries := [] ++ [e]; Runner.thisEntry := ∅ |}, Runner.Continue) /\
    e !! "resp_key" = Some (Runner.VStr "left") /\
    e !! "rt" = Some (Runner.VFloat (3 # 4)) /\
    e !! "emotion" =
      Some (Runner.VStr (norm_emotion {["filename" := "a.jpg"; "emotion" := " Sad"]})) /\
    e !! "correct" =
      Some (Runner.VBool
              (if String.eqb (norm_emotion {["filename" := "a.jpg"; "emotion" := " Sad"]}) "happy"
               then String.eqb "left" "right" else String.eqb "left" "left")).
Proof.
  apply (response_scored 3 {["filename" := "a.jpg"; "emotion" := " Sad"]}
           {| Runner.quit_pressed := false; Runner.file_exists := true;
              Runner.keys := Some [("left", 3 # 4); ("right", 1%Q)] |}
           {| Runner.entries := []; Runner.thisEntry := ∅ |}
           "left" (3 # 4) [("right", 1%Q)]).
  - reflexivity.
  - reflexivity.
  - reflexivity.
  - intros H. apply in_list_iff in H. discriminate.
  - right. vm_compute. reflexivity.
Defined.

(** ** The session runner: practice examples *)

Section Practice.
Variable choice : list (gmap string string) -> gmap string string.
Variable shuffle : list (gmap string string) -> list (gmap string string).
(** [random.choice] returns an element of a non-empty pool and
    [random.shuffle] permutes its list. *)
Hypothesis choice_in : forall pool, pool <> [] -> choice pool ∈ pool.
Hypothesis shuffle_perm : forall l, shuffle l ≡ₚ l.

#[local] Abbreviation picked := (picked_by choice).
#[local] Abbreviation practice_of := (practice_by choice).

Lemma picked_length (pool : list (gmap string string)) : length (picked pool) <= 1.
Proof. destruct pool; simpl; lia. Qed.

Lemma picked_in (all_rows : list (gmap string string)) (emo src : string)
    (r : gmap string string) :
  r ∈ picked (Runner.match_rows all_rows emo src) -> r ∈ all_rows.
Proof.
  unfold picked_by. destruct (Runner.match_rows all_rows emo src) as [|x l] eqn:E.
  - intros H. now apply elem_of_nil in H.
  - intros H. apply list_elem_of_singleton in H. subst r.
    assert (Hin : choice (x :: l) ∈ Runner.match_rows all_rows emo src).
    { rewrite E. now apply choice_in. }
    unfold Runner.match_rows in Hin. now apply list_elem_of_filter in Hin as [_ Hin].
Qed.

Lemma filter_split_length {A : Type} (P : A -> Prop) `{!forall x, Decision (P x)}
    (l : list A) :
  length (filter P l) + length (filter (fun x => ~ P x) l) = length l.
Proof.
  induction l as [|x r IH]; [reflexivity|].
  rewrite !filter_cons. destruct (decide (P x)) as [Hx|Hx].
  - destruct (decide (~ P x)); [contradiction|]. simpl. lia.
  - destruct (decide (~ P x)); [|contradiction]. simpl. lia.
Qed.

Lemma remaining_length (practice all_rows : list (gmap string string)) :
  NoDup all_rows ->
  length all_rows <= length practice + length (filter (fun r => r ∉ practice) all_rows).
Proof.
  intros Hnd.
  pose proof (filter_split_length (fun r => r ∈ practice) all_rows) as Hsplit.
  assert (Hle : length (filter (fun r => r ∈ practice) all_rows) <= length practice).
  { apply submseteq_length, NoDup_submseteq.
    - now apply NoDup_filter.
    - intros x Hx. now apply list_elem_of_filter in Hx as [Hx _]. }
  lia.
Qed.

Lemma pick_practice_unfold (all_rows : list (gmap string string)) :
  Runner.pick_practice_examples choice shuffle all_rows =
  take 4 (if (length (practice_of all_rows) <? 4)%nat
          then practice_of all_rows
               ++ take (4 - length (practice_of all_rows))
                    (shuffle (filter (fun r => r ∉ practice_of all_rows) all_rows))
          else practice_of all_rows).
Proof.
  unfold Runner.pick_practice_examples, practice_by, picked_by. simpl flat_map.
  rewrite app_nil_r. reflexivity.
Qed.

(** X13. The practice examples: at most four rows, all taken from the
    loaded rows; when each of the four (emotion, source) cells has a row,
    they are one row of each cell, in the order happy/ai, happy/non-ai,
    sad/ai, sad/non-ai; and when the loaded rows are pairwise different
    and at least four, there are exactly four examples. *)
Theorem pick_practice_spec (all_rows : list (gmap string string)) :
  length (Runner.pick_practice_examples choice shuffle all_rows) <= 4 /\
  (forall r, r ∈ Runner.pick_practice_examples choice shuffle all_rows -> r ∈ all_rows) /\
  (Runner.match_rows all_rows "happy" "ai" <> [] ->
   Runner.match_rows all_rows "happy" "non-ai" <> [] ->
   Runner.match_rows all_rows "sad" "ai" <> [] ->
   Runner.match_rows all_rows "sad" "non-ai" <> [] ->
   Runner.pick_practice_examples choice shuffle all_rows =
     [choice (Runner.match_rows all_rows "happy" "ai");
      choice (Runner.match_rows all_rows "happy" "non-ai");
      choice (Runner.match_rows all_rows "sad" "ai");
      choice (Runner.match_rows all_rows "sad" "non-ai")]) /\
  (NoDup all_rows -> 4 <= length all_rows ->
   length (Runner.pick_practice_examples choice shuffle all_rows) = 4).
Proof.
  rewrite pick_practice_unfold.
  set (practice := practice_of all_rows).
  assert (Hlen : length practice <= 4).
  { unfold practice, practice_by. rewrite !length_app.
    pose proof (picked_length (Runner.match_rows all_rows "happy" "ai")).
    pose proof (picked_length (Runner.match_rows all_rows "happy" "non-ai")).
    pose proof (picked_length (Runner.match_rows all_rows "sad" "ai")).
    pose proof (picked_length (Runner.match_rows all_rows "sad" "non-ai")). lia. }
  assert (Hin : forall r, r ∈ practice -> r ∈ all_rows).
  { unfold practice, practice_by. intros r Hr.
    repeat (apply elem_of_app in Hr as [Hr|Hr]; [now apply picked_in in Hr|]).
    now apply picked_in in Hr. }
  split; [|split; [|split]].
  - rewrite length_take. lia.
  - intros r Hr. apply subseteq_take in Hr.
    destruct (length practice <? 4)%nat; [|now apply Hin].
    apply elem_of_app in Hr as [Hr|Hr]; [now apply Hin|].
    apply subseteq_take in Hr. rewrite shuffle_perm in Hr.
    now apply list_elem_of_filter in Hr as [_ Hr].
  - intros H1 H2 H3 H4. unfold practice, practice_by, picked_by.
    destruct (Runner.match_rows all_rows "happy" "ai"); [contradiction|].
    destruct (Runner.match_rows all_rows "happy" "non-ai"); [contradiction|].
    destruct (Runner.match_rows all_rows "sad" "ai"); [contradiction|].
    destruct (Runner.match_rows all_rows "sad" "non-ai"); [contradiction|].
    reflexivity.
  - intros Hnd Hfour. rewrite length_take.
    destruct (length practice <? 4)%nat eqn:E.
    + apply Nat.ltb_lt in E. rewrite length_app, length_take.
      rewrite (Permutation_length (shuffle_perm _)).
      pose proof (remaining_length practice all_rows Hnd). lia.
    + apply Nat.ltb_ge in E. lia.
Qed.

End Practice.

Lemma pick_practice_spec_witness :
  Runner.pick_practice_examples (fun pool => default ∅ (head pool)) (fun l => l) practice_rows =
    [{["filename" := "AI_Woman07_Happy.jpg"; "source" := "AI"; "emotion" := "happy"]};
     {["filename" := "real_woman2_smiling.png"; "source" := "non-ai"; "emotion" := "happy"]};
     {["filename" := "ai_man_sad.jpg"; "source" := "ai"; "emotion" := "sad"]};
     {["filename" := "real_man3_sad.png"; "source" := "non-ai"; "emotion" := "sad"]}] /\
  length (Runner.pick_practice_examples (fun pool => default ∅ (head pool)) (fun l => l)
            practice_rows) = 4 /\
  forall r,
    r ∈ Runner.pick_practice_examples (fun pool => default ∅ (head pool)) (fun l => l)
          practice_rows ->
    r ∈ practice_rows.
Proof.
  destruct (pick_practice_spec (fun pool => default ∅ (head pool)) (fun l => l))
    with (all_rows := practice_rows) as [_ [Hin [Hcells Hfour]]].
  - intros [|x l] H; [contradiction|]. simpl. apply list_elem_of_here.
  - intros l. reflexivity.
  - split; [|split; [|exact Hin]].
    + etransitivity.
      * apply Hcells; intros H; apply (f_equal length) in H; vm_compute in H; discriminate.
      * apply (bool_decide_eq_true_1 _). vm_compute. reflexivity.
    + apply Hfour; [|simpl; lia].
      apply (bool_decide_eq_true_1 _). vm_compute. reflexivity.
Defined.

(** ** The aggregator: finding columns *)

Lemma fold_insert_lower_snoc (cols : list string) (c : string) (m : gmap string string) :
  fold_left (fun (m : gmap string string) c => <[PyStr.lower c := c]> m) (cols ++ [c]) m =
  <[PyStr.lower c := c]> (fold_left (fun m c => <[PyStr.lower c := c]> m) cols m).
Proof. now rewrite fold_left_app. Qed.

(** The dictionary of lower-cased names holds, under a key, the last
    column with that lower-cased name. *)
Lemma cols_lower_Some (cols : list string) (k c : string) :
  fold_left (fun (m : gmap string string) c => <[PyStr.lower c := c]> m) cols ∅ !! k = Some c ->
  exists l1 l2, cols = l1 ++ c :: l2 /\ PyStr.lower c = k /\
                forall c', c' ∈ l2 -> PyStr.lower c' <> k.
Proof.
  induction cols as [|x cols IH] using rev_ind.
  - simpl. rewrite lookup_empty. discriminate.
  - rewrite fold_insert_lower_snoc.
    destruct (decide (PyStr.lower x = k)) as [Hx|Hx].
    + rewrite Hx, lookup_insert_eq. intros [= ->].
      exists cols, []. split; [reflexivity|]. split; [exact Hx|].
      intros c' Hc'. now apply elem_of_nil in Hc'.
    + rewrite lookup_insert_ne by exact Hx. intros H.
      destruct (IH H) as [l1 [l2 [-> [Hc Hl2]]]].
      exists l1, (l2 ++ [x]). split; [now rewrite <- app_assoc|]. split; [exact Hc|].
      intros c' Hc'. apply elem_of_app in Hc' as [Hc'|Hc']; [now apply Hl2|].
      apply list_elem_of_singleton in Hc'. now subst c'.
Qed.

Lemma cols_lower_None (cols : list string) (k : string) :
  fold_left (fun (m : gmap string string) c => <[PyStr.lower c := c]> m) cols ∅ !! k = None <->
  forall c, c ∈ cols -> PyStr.lower c <> k.
Proof.
  induction cols as [|x cols IH] using rev_ind.
  - simpl. rewrite lookup_empty. split; [|reflexivity].
    intros _ c Hc. now apply elem_of_nil in Hc.
  - rewrite fold_insert_lower_snoc. split.
    + intros H c Hc. apply lookup_insert_None in H as [H Hx].
      apply elem_of_app in Hc as [Hc|Hc]; [now apply IH|].
      apply list_elem_of_singleton in Hc. now subst c.
    + intros H. apply lookup_insert_None. split.
      * apply IH. intros c Hc. apply H, elem_of_app. now left.
      * apply H, elem_of_app. right. apply list_elem_of_here.
Qed.

(** X14. Picking a column by candidate names.  The result is a column
    of the frame whose lower-cased name is that of a candidate; it
    belongs to the first candidate, in their order, that any column
    matches; among several columns matching that candidate the last one
    is taken; and no column is found exactly when no column matches any
    candidate. *)
Theorem pick_column_spec (df : Pandas.frame) (candidates : list string) :
  (forall c, Aggregator.pick_column df candidates = Some c ->
     exists pre cand post l1 l2,
       candidates = pre ++ cand :: post /\
       Pandas.columns df = l1 ++ c :: l2 /\
       PyStr.lower c = PyStr.lower cand /\
       (forall c', c' ∈ l2 -> PyStr.lower c' <> PyStr.lower cand) /\
       (forall cand' c', cand' ∈ pre -> c' ∈ Pandas.columns df ->
          PyStr.lower c' <> PyStr.lower cand')) /\
  (Aggregator.pick_column df candidates = None <->
   forall cand c, cand ∈ candidates -> c ∈ Pandas.columns df ->
     PyStr.lower c <> PyStr.lower cand).
Proof.
  unfold Aggregator.pick_column, Aggregator.cols_lower.
  induction candidates as [|cand rest [IHs IHn]]; simpl.
  - split; [discriminate|]. split; [|reflexivity].
    intros _ cand c Hc. now apply elem_of_nil in Hc.
  - destruct (fold_left _ (Pandas.columns df) ∅ !! PyStr.lower cand) as [c0|] eqn:E.
    + split.
      * intros c [= <-]. destruct (cols_lower_Some _ _ _ E) as [l1 [l2 [Hc [Hl Hl2]]]].
        exists [], cand, rest, l1, l2. repeat split; try assumption.
        intros cand' c' H. now apply elem_of_nil in H.
      * split; [discriminate|]. intros H. exfalso.
        destruct (cols_lower_Some _ _ _ E) as [l1 [l2 [Hc [Hl _]]]].
        apply (H cand c0); [apply list_elem_of_here | | exact Hl].
        rewrite Hc. apply elem_of_app. right. apply list_elem_of_here.
    + pose proof (proj1 (cols_lower_None _ _) E) as Hnone. split.
      * intros c Hc.
        destruct (IHs c Hc) as [pre [cand0 [post [l1 [l2 [Hcs [Hcols [Hl [Hl2 Hpre]]]]]]]]].
        exists (cand :: pre), cand0, post, l1, l2. repeat split; try assumption.
        -- now rewrite Hcs.
        -- intros cand' c' Hin Hc'. apply elem_of_cons in Hin as [->|Hin].
           ++ now apply Hnone.
           ++ now apply Hpre.
      * rewrite IHn. split.
        -- intros H cand' c Hin Hc. apply elem_of_cons in Hin as [->|Hin].
           ++ now apply Hnone.
           ++ now apply H.
        -- intros H cand' c Hin Hc. apply H; [|exact Hc]. now apply list_elem_of_further.
Qed.

(** ** The aggregator: pruning columns *)

Lemma filter_ext_in {A : Type} (P Q : A -> Prop)
    `{!forall x, Decision (P x), !forall x, Decision (Q x)} (l : list A) :
  (forall x, x ∈ l -> P x <-> Q x) -> filter P l = filter Q l.
Proof.
  induction l as [|x r IH]; intros Hext; [reflexivity|].
  rewrite !filter_cons.
  assert (Hx : P x <-> Q x) by (apply Hext, list_elem_of_here).
  assert (Hr : filter P r = filter Q r).
  { apply IH. intros y Hy. now apply Hext, list_elem_of_further. }
  destruct (decide (P x)), (decide (Q x)); try tauto; now rewrite Hr.
Qed.

Lemma existsb_eqb_filter (c : string) (P : string -> Prop)
    `{!forall x, Decision (P x)} (l : list string) :
  P c -> existsb (String.eqb c) (filter P l) = existsb (String.eqb c) l.
Proof.
  intros Hc. induction l as [|x r IH]; [reflexivity|].
  rewrite filter_cons. destruct (decide (P x)) as [Hx|Hx]; simpl.
  - now rewrite IH.
  - rewrite IH. destruct (String.eqb_spec c x) as [->|Hne]; [contradiction | reflexivity].
Qed.

Lemma has_col_in (c : string) (s : Pandas.series) (df : Pandas.frame) :
  (c, s) ∈ df -> Pandas.has_col c df = true.
Proof.
  intros H. unfold Pandas.has_col, Pandas.columns. apply existsb_exists.
  exists c. split; [|apply String.eqb_refl].
  apply in_map_iff. exists (c, s). split; [reflexivity | now apply list_elem_of_In].
Qed.

Lemma prune_filter (df : Pandas.frame) :
  Aggregator.prune df = filter (fun cs => is_kept (fst cs) = true) df.
Proof.
  unfold Aggregator.prune, Pandas.drop. rewrite list_filter_filter.
  apply filter_ext_in. intros [c s] Hin. simpl fst. unfold is_kept.
  rewrite (existsb_eqb_filter c (fun c => Pandas.has_col c df)).
  2: { apply Is_true_true. now apply (has_col_in c s). }
  rewrite andb_true_iff, !negb_true_iff.
  split.
  - intros [H1 H2]. split; [exact H2|]. now destruct (PyStr.startswith c "Unnamed").
  - intros [H1 H2]. split; [now rewrite H2 | exact H1].
Qed.

Lemma is_kept_iff (c : string) :
  is_kept c = true <-> (c ∉ Aggregator.cols_to_remove) /\ ~ starts "Unnamed" c.
Proof.
  unfold is_kept, PyStr.startswith.
  rewrite andb_true_iff, !negb_true_iff, <- prefix_starts.
  rewrite <- !not_true_iff_false, existsb_exists.
  split; intros [H1 H2]; (split; [|exact H2]).
  - intros Hin. apply H1. exists c. split; [now apply list_elem_of_In | apply String.eqb_refl].
  - intros [x [Hin Hx]]. apply String.eqb_eq in Hx. subst x. now apply H1, list_elem_of_In.
Qed.

(** X15. Pruning removes exactly the bookkeeping columns and the
    columns whose name starts with Unnamed: what remains are the other
    columns, in their order and with their contents, and pruning a
    pruned frame changes nothing. *)
Theorem prune_spec (df : Pandas.frame) :
  (forall c, is_kept c = true <->
             (c ∉ Aggregator.cols_to_remove) /\ ~ starts "Unnamed" c) /\
  Aggregator.prune df = filter (fun cs => is_kept (fst cs) = true) df /\
  (forall c, c ∈ Pandas.columns (Aggregator.prune df) <->
             c ∈ Pandas.columns df /\ is_kept c = true) /\
  (forall c, is_kept c = true ->
     Pandas.get_col c (Aggregator.prune df) = Pandas.get_col c df) /\
  Aggregator.prune (Aggregator.prune df) = Aggregator.prune df.
Proof.
  split; [exact is_kept_iff|]. split; [apply prune_filter|]. split; [|split].
  - intros c. rewrite prune_filter. unfold Pandas.columns. split.
    + intros Hc. apply list_elem_of_In, in_map_iff in Hc as [[c' s] [Hfst Hin]].
      simpl in Hfst. subst c'.
      apply list_elem_of_In, list_elem_of_filter in Hin as [Hk Hin]. split; [|exact Hk].
      apply list_elem_of_In, in_map_iff. exists (c, s). split; [reflexivity|].
      now apply list_elem_of_In.
    + intros [Hc Hk]. apply list_elem_of_In, in_map_iff in Hc as [[c' s] [Hfst Hin]].
      simpl in Hfst. subst c'.
      apply list_elem_of_In, in_map_iff. exists (c, s). split; [reflexivity|].
      apply list_elem_of_In, list_elem_of_filter. split; [exact Hk | now apply list_elem_of_In].
  - intros c Hk. rewrite prune_filter. apply get_col_filter. intros s. exact Hk.
  - rewrite (prune_filter (Aggregator.prune df)), prune_filter. apply filter_idem.
Qed.

(** ** The aggregator: the outlier percentage *)

Lemma dropna_map_Some {A : Type} (f : A -> Q) (l : list A) :
  Pandas.dropna (map (fun x => Some (f x)) l) = map f l.
Proof.
  unfold Pandas.dropna. induction l as [|x r IH]; simpl; [reflexivity|].
  f_equal. exact IH.
Qed.

Lemma count_true_cons (b : bool) (l : list bool) :
  count_true (b :: l) = ((if b then 1 else 0) + count_true l)%nat.
Proof.
  unfold count_true. rewrite filter_cons.
  destruct b; destruct (decide _); try congruence; reflexivity.
Qed.

Lemma count_true_le (l : list bool) : (count_true l <= length l)%nat.
Proof. unfold count_true. apply length_filter. Qed.

Lemma Qsum_bools (l : list bool) :
  (Pandas.Qsum (map Pandas.Q_of_bool l) == inject_Z (Z.of_nat (count_true l)))%Q.
Proof.
  induction l as [|b r IH]; [reflexivity|].
  rewrite count_true_cons. simpl Pandas.Qsum. rewrite IH.
  rewrite Nat2Z.inj_add, inject_Z_plus. destruct b; reflexivity.
Qed.

Lemma mean_bool_cons (b : bool) (r : list bool) :
  Pandas.mean_bool (b :: r) =
  Some (Pandas.Qsum (map Pandas.Q_of_bool (b :: r))
        / inject_Z (Z.of_nat (length (b :: r))))%Q.
Proof.
  unfold Pandas.mean_bool, Pandas.mean. rewrite dropna_map_Some.
  cbn [map length]. now rewrite length_map.
Qed.

Lemma pct_gt_10 (k : Z) (n : positive) :
  (10 < 100 * (inject_Z k / inject_Z (Zpos n)))%Q <-> (Zpos n < 10 * k)%Z.
Proof. unfold Qlt, Qmult, Qdiv, Qinv, inject_Z. simpl. lia. Qed.

Lemma pct_between (k : Z) (n : positive) :
  (0 <= k <= Zpos n)%Z ->
  (0 <= 100 * (inject_Z k / inject_Z (Zpos n)) <= 100)%Q.
Proof. intros H. unfold Qle, Qmult, Qdiv, Qinv, inject_Z. simpl. lia. Qed.

(** The percentage of a non-empty flag column, up to equality of
    rationals. *)
Lemma pct_cons (b : bool) (r : list bool) :
  exists (p : Q) (n : positive),
    Aggregator.outlier_pct (b :: r) = Some p /\
    Zpos n = Z.of_nat (length (b :: r)) /\
    (p == 100 * (inject_Z (Z.of_nat (count_true (b :: r))) / inject_Z (Zpos n)))%Q.
Proof.
  unfold Aggregator.outlier_pct. rewrite mean_bool_cons.
  eexists. exists (Pos.of_succ_nat (length r)). split; [reflexivity|].
  split; [simpl length; lia|].
  rewrite Qsum_bools.
  replace (Z.of_nat (length (b :: r))) with (Z.pos (Pos.of_succ_nat (length r)))
    by (simpl length; lia).
  reflexivity.
Qed.

Lemma too_many_iff (flags : list bool) :
  Aggregator.too_many (Aggregator.outlier_pct flags) = true <->
  (length flags < 10 * count_true flags)%nat.
Proof.
  destruct flags as [|b r].
  - split; [discriminate | simpl; lia].
  - destruct (pct_cons b r) as [p [n [Hp [Hn Heq]]]]. rewrite Hp.
    unfold Aggregator.too_many. rewrite Qltb_lt, Heq, pct_gt_10. lia.
Qed.

Lemma to_numeric_length (T : Pandas.numtext) (s : Pandas.series) :
  length (Pandas.to_numeric T s) = Pandas.series_len s.
Proof. destruct s; simpl; try apply length_map; reflexivity. Qed.

Lemma rt_outlier_length (rt : list (option Q)) :
  length (Aggregator.rt_outlier rt) = length rt.
Proof. rewrite rt_outlier_map. apply length_map. Qed.

(** X16. The threshold in whole numbers: a file with a reaction-time
    column is skipped exactly when ten times the number of flagged rows
    exceeds the number of rows; in particular an empty file is not
    skipped. *)
Theorem skip_iff_tenth (T : Pandas.numtext) (df : Pandas.frame) (s : Pandas.series) :
  Pandas.get_col "rt" df = Some s ->
  length (Aggregator.rt_outlier (Pandas.to_numeric T s)) = Pandas.series_len s /\
  (Aggregator.remove_rt_outliers T df = None <->
   (Pandas.series_len s
    < 10 * count_true (Aggregator.rt_outlier (Pandas.to_numeric T s)))%nat).
Proof.
  intros Hrt. split.
  - now rewrite rt_outlier_length, to_numeric_length.
  - rewrite remove_rt_outliers_None. unfold exceeds_threshold. rewrite Hrt.
    rewrite too_many_iff. now rewrite rt_outlier_length, to_numeric_length.
Qed.

Lemma skip_iff_tenth_witness :
  length (Aggregator.rt_outlier
            (Pandas.to_numeric plain_text (Pandas.FloatS [Some (1 # 2); None])))
  = Pandas.series_len (Pandas.FloatS [Some (1 # 2); None]) /\
  (Aggregator.remove_rt_outliers plain_text half_missing = None <->
   (Pandas.series_len (Pandas.FloatS [Some (1 # 2); None])
    < 10 * count_true (Aggregator.rt_outlier
                         (Pandas.to_numeric plain_text
                            (Pandas.FloatS [Some (1 # 2); None]))))%nat).
Proof.
  apply (skip_iff_tenth plain_text half_missing (Pandas.FloatS [Some (1 # 2); None])).
  reflexivity.
Defined.

Lemma count_missing_le_flagged (rt : list (option Q)) :
  (count_missing rt <= count_true (Aggregator.rt_outlier rt))%nat.
Proof.
  rewrite rt_outlier_map. generalize (Pandas.dropna rt) as valid. intros valid.
  unfold count_missing. induction rt as [|o r IH]; [simpl; lia|].
  simpl map. rewrite count_true_cons, filter_cons.
  destruct o as [x|]; destruct (decide _); try congruence.
  - etransitivity; [exact IH|]. destruct (flag_of valid (Some x)); lia.
  - simpl length. simpl flag_of. apply le_n_S. exact IH.
Qed.

(** X17. A session in which more than a tenth of the reaction times
    are missing (blank or not numeric) is always skipped. *)
Theorem many_missing_skipped (T : Pandas.numtext) (filename : string)
    (df : Pandas.frame) (s : Pandas.series) :
  Pandas.get_col "rt" df = Some s ->
  (Pandas.series_len s < 10 * count_missing (Pandas.to_numeric T s))%nat ->
  Aggregator.process_file T filename df = Done Aggregator.Skipped.
Proof.
  intros Hrt Hmany. apply process_file_skipped.
  unfold exceeds_threshold. rewrite get_col_prune_rt, Hrt.
  apply too_many_iff. rewrite rt_outlier_length, to_numeric_length.
  pose proof (count_missing_le_flagged (Pandas.to_numeric T s)). lia.
Qed.

Lemma many_missing_skipped_witness :
  Aggregator.process_file plain_text "p01.csv" half_missing = Done Aggregator.Skipped.
Proof.
  apply (many_missing_skipped plain_text "p01.csv" half_missing
           (Pandas.FloatS [Some (1 # 2); None])).
  - reflexivity.
  - vm_compute. lia.
Defined.

(** ** The aggregator: the cleaned frame *)

Lemma get_col_set_col_eq (c : string) (s : Pandas.series) (df : Pandas.frame) :
  Pandas.get_col c (Pandas.set_col c s df) = Some s.
Proof.
  induction df as [|[c' s'] r IH]; simpl.
  - now rewrite String.eqb_refl.
  - destruct (String.eqb c c') eqn:E; simpl; rewrite ?String.eqb_refl, ?E; [reflexivity | exact IH].
Qed.

Lemma get_col_set_col_ne (c c' : string) (s : Pandas.series) (df : Pandas.frame) :
  c <> c' -> Pandas.get_col c (Pandas.set_col c' s df) = Pandas.get_col c df.
Proof.
  intros Hne. induction df as [|[d s'] r IH]; simpl.
  - apply String.eqb_neq in Hne. now rewrite Hne.
  - destruct (String.eqb c' d) eqn:E; simpl.
    + apply String.eqb_eq in E. subst d.
      apply String.eqb_neq in Hne. now rewrite Hne.
    + destruct (String.eqb c d); [reflexivity | exact IH].
Qed.

Lemma get_col_drop_in (c : string) (cs : list string) (df : Pandas.frame) :
  c ∈ cs -> Pandas.get_col c (Pandas.drop cs df) = None.
Proof.
  intros Hin. unfold Pandas.drop. induction df as [|[d s] r IH]; [reflexivity|].
  rewrite filter_cons. simpl fst. destruct (decide _) as [Hd|Hd]; [|exact IH].
  simpl. destruct (String.eqb_spec c d) as [->|Hne]; [|exact IH].
  exfalso. apply not_true_iff_false in Hd. apply Hd, existsb_exists.
  exists d. split; [now apply list_elem_of_In | apply String.eqb_refl].
Qed.

Lemma get_col_drop_out (c : string) (cs : list string) (df : Pandas.frame) :
  c ∉ cs -> Pandas.get_col c (Pandas.drop cs df) = Pandas.get_col c df.
Proof.
  intros Hout. unfold Pandas.drop. apply get_col_filter. intros s. simpl fst.
  apply not_true_iff_false. intros H. apply existsb_exists in H as [x [Hx He]].
  apply String.eqb_eq in He. subst x. now apply Hout, list_elem_of_In.
Qed.

Lemma select_unflagged (f : option Q -> bool) (l : list (option Q)) :
  Forall (fun o => f o = false) (Pandas.select (map negb (map f l)) l).
Proof.
  induction l as [|o r IH]; simpl; [constructor|].
  destruct (f o) eqn:E; simpl; [exact IH | now constructor].
Qed.

Lemma select_negb_length {A : Type} (flags : list bool) (l : list A) :
  length flags = length l ->
  (length (Pandas.select (map negb flags) l) + count_true flags = length l)%nat.
Proof.
  revert l. induction flags as [|b r IH]; intros [|x l] Hlen; simpl in Hlen; try lia.
  - reflexivity.
  - rewrite count_true_cons. simpl map. simpl Pandas.select.
    specialize (IH l ltac:(lia)). destruct b; simpl; lia.
Qed.

Lemma Forall_Some_map (l : list (option Q)) :
  Forall (fun o => o <> None) l -> l = map Some (Pandas.dropna l).
Proof.
  unfold Pandas.dropna. induction 1 as [|o r Ho Hr IH]; [reflexivity|].
  destruct o as [x|]; [|contradiction]. simpl. f_equal. exact IH.
Qed.

(** X18. The cleaned file of a session that is not skipped: its
    reaction-time column holds no missing value; it holds, in order, the
    values of the rows that were not flagged, so as many as there were
    rows minus the flagged ones; none of them is below the lower or
    above the upper fence when there were at least 4 valid values; and
    the helper column rt_outlier is gone. *)
Theorem cleaned_rt_valid (T : Pandas.numtext) (df kept : Pandas.frame) (s : Pandas.series) :
  Pandas.get_col "rt" df = Some s ->
  Aggregator.remove_rt_outliers T df = Some kept ->
  let rt := Pandas.to_numeric T s in
  let flags := Aggregator.rt_outlier rt in
  let valid := Pandas.dropna rt in
  exists vals : list Q,
    Pandas.get_col "rt" kept = Some (Pandas.FloatS (map Some vals)) /\
    map Some vals = Pandas.select (map negb flags) rt /\
    (length vals + count_true flags = Pandas.series_len s)%nat /\
    ((4 <= length valid)%nat ->
     Forall (fun x => ~ below x (lower_fence valid) /\ ~ above x (upper_fence valid)) vals) /\
    Pandas.get_col "rt_outlier" kept = None.
Proof.
  intros Hrt Hkept rt flags valid.
  unfold Aggregator.remove_rt_outliers in Hkept. rewrite Hrt in Hkept. cbv zeta in Hkept.
  fold rt in Hkept. fold flags in Hkept.
  destruct (Aggregator.too_many (Aggregator.outlier_pct flags)); [discriminate|].
  injection Hkept as <-.
  assert (Hsel : Forall (fun o => flag_of valid o = false)
                   (Pandas.select (map negb flags) rt)).
  { unfold flags. rewrite rt_outlier_map. apply select_unflagged. }
  assert (Hsome : Pandas.select (map negb flags) rt
                  = map Some (Pandas.dropna (Pandas.select (map negb flags) rt))).
  { apply Forall_Some_map. eapply list.Forall_impl; [exact Hsel|].
    intros [x|] H; [discriminate | simpl in H; discriminate]. }
  exists (Pandas.dropna (Pandas.select (map negb flags) rt)).
  split; [|split; [|split; [|split]]].
  - rewrite get_col_drop_out by (intros H; apply list_elem_of_singleton in H; discriminate).
    rewrite get_col_frame_select.
    rewrite !get_col_set_col_ne by discriminate.
    rewrite get_col_set_col_eq. simpl. now rewrite <- Hsome.
  - now rewrite <- Hsome.
  - rewrite <- (length_map Some), <- Hsome.
    rewrite select_negb_length.
    + apply to_numeric_length.
    + apply rt_outlier_length.
  - intros Hlen. apply Nat.leb_le in Hlen.
    rewrite Hsome in Hsel. apply list.Forall_forall. intros x Hx.
    rewrite list.Forall_forall in Hsel.
    assert (Hin : Some x ∈ map Some (Pandas.dropna (Pandas.select (map negb flags) rt))).
    { apply list_elem_of_In, in_map, list_elem_of_In, Hx. }
    specialize (Hsel (Some x) Hin). unfold flag_of in Hsel. rewrite Hlen in Hsel.
    apply orb_false_iff in Hsel as [H1 H2].
    unfold below, above. split; intros H; congruence.
  - apply get_col_drop_in, list_elem_of_here.
Qed.

Lemma cleaned_rt_valid_witness :
  let rt := Pandas.to_numeric plain_text (Pandas.FloatS slow_and_missing_rt) in
  let flags := Aggregator.rt_outlier rt in
  let valid := Pandas.dropna rt in
  exists vals : list Q,
    Pandas.get_col "rt" slow_and_missing_cleaned = Some (Pandas.FloatS (map Some vals)) /\
    map Some vals = Pandas.select (map negb flags) rt /\
    (length vals + count_true flags
     = Pandas.series_len (Pandas.FloatS slow_and_missing_rt))%nat /\
    ((4 <= length valid)%nat ->
     Forall (fun x => ~ below x (lower_fence valid) /\ ~ above x (upper_fence valid)) vals) /\
    Pandas.get_col "rt_outlier" slow_and_missing_cleaned = None.
Proof.
  apply (cleaned_rt_valid plain_text slow_and_missing slow_and_missing_cleaned
           (Pandas.FloatS slow_and_missing_rt)).
  - reflexivity.
  - vm_compute. reflexivity.
Defined.

(** ** The aggregator: metrics *)

Lemma pct_range (l : list bool) (p : Q) :
  Aggregator.outlier_pct l = Some p -> (0 <= p <= 100)%Q.
Proof.
  destruct l as [|b r]; [discriminate|].
  destruct (pct_cons b r) as [p' [n [Hp [Hn Heq]]]]. rewrite Hp. intros [= <-].
  rewrite Heq. apply pct_between.
  pose proof (count_true_le (b :: r)). lia.
Qed.

(** X19. Percentages stay in range: the outlier percentage of a file
    and every accuracy of a summary row lie between 0 and 100. *)
Theorem percentages_in_range :
  (forall (flags : list bool) (p : Q),
     Aggregator.outlier_pct flags = Some p -> (0 <= p <= 100)%Q) /\
  (forall (T : Pandas.numtext) (df : Pandas.frame) (db_cat emo_cat : list (option string))
          (correct_bool : option (list bool)) (db_label emo_label : string) (acc : Q),
     snd (Aggregator.compute_metrics T df db_cat emo_cat correct_bool db_label emo_label)
       = Some acc ->
     (0 <= acc <= 100)%Q).
Proof.
  split; [exact pct_range|].
  intros T df db_cat emo_cat [cb|] db_label emo_label acc; simpl; [|discriminate].
  apply pct_range.
Qed.

Lemma select_all_false {A : Type} (mask : list bool) (l : list A) :
  Forall (fun b => b = false) mask -> Pandas.select mask l = [].
Proof.
  intros H. revert l. induction H as [|b m Hb Hm IH]; intros [|x l]; simpl; try reflexivity.
  subst b. apply IH.
Qed.

Lemma to_numeric_select (T : Pandas.numtext) (mask : list bool) (s : Pandas.series) :
  Pandas.to_numeric T (Pandas.series_select mask s)
  = Pandas.select mask (Pandas.to_numeric T s).
Proof.
  assert (Hmap : forall (A B : Type) (f : A -> B) (l : list A) (m : list bool),
             map f (Pandas.select m l) = Pandas.select m (map f l)).
  { intros A B f l. induction l as [|x r IH]; intros [|b m]; simpl; try reflexivity.
    destruct b; simpl; now rewrite IH. }
  destruct s; simpl; try apply Hmap. reflexivity.
Qed.

(** X20. A condition without any row gives missing values, not zero
    and not an error: when no row of the file is labelled with the
    requested source and emotion, both the mean reaction time and the
    accuracy of that condition are NaN. *)
Theorem empty_condition_is_nan (T : Pandas.numtext) (df : Pandas.frame)
    (db_cat emo_cat : list (option string)) (correct_bool : option (list bool))
    (db_label emo_label : string) :
  (forall d e, (d, e) ∈ combine db_cat emo_cat ->
     ~ (d = Some db_label /\ e = Some emo_label)) ->
  Aggregator.compute_metrics T df db_cat emo_cat correct_bool db_label emo_label
  = (None, None).
Proof.
  intros Hnone. unfold Aggregator.compute_metrics.
  set (mask := map _ (combine db_cat emo_cat)).
  assert (Hmask : Forall (fun b => b = false) mask).
  { unfold mask. apply list.Forall_forall. intros b Hb.
    apply list_elem_of_In, in_map_iff in Hb as [[d e] [Hb Hin]]. subst b. simpl.
    apply not_true_iff_false. intros H. apply andb_true_iff in H as [H1 H2].
    apply (Hnone d e); [now apply list_elem_of_In|].
    unfold Aggregator.eq_label in *.
    destruct d as [d|]; [|discriminate]. destruct e as [e|]; [|discriminate].
    apply String.eqb_eq in H1, H2. now subst. }
  rewrite get_col_frame_select. f_equal.
  - destruct (Pandas.get_col "rt" df) as [s|]; [|reflexivity]. simpl.
    now rewrite to_numeric_select, select_all_false.
  - destruct correct_bool as [cb|]; [|reflexivity].
    now rewrite select_all_false.
Qed.

Lemma empty_condition_is_nan_witness :
  Aggregator.compute_metrics plain_text
    [("rt", Pandas.FloatS [Some (1 # 2)])] [Some "ai"] [Some "happy"] (Some [true])
    "non-ai" "sad"
  = (None, None).
Proof.
  apply (empty_condition_is_nan plain_text [("rt", Pandas.FloatS [Some (1 # 2)])]
           [Some "ai"] [Some "happy"] (Some [true]) "non-ai" "sad").
  intros d e Hin [Hd He]. apply list_elem_of_singleton in Hin. congruence.
Defined.

(** X21. An emotion value that contains sad normalises to sad, also
    when it contains happy too; otherwise one that contains happy
    normalises to happy; otherwise it is unresolved. *)
Theorem normalize_emotion_spec (x : string) :
  (occurs "sad" x -> Aggregator.normalize_emotion x = Some "sad") /\
  (~ occurs "sad" x -> occurs "happy" x -> Aggregator.normalize_emotion x = Some "happy") /\
  (~ occurs "sad" x -> ~ occurs "happy" x -> Aggregator.normalize_emotion x = None) /\
  (Aggregator.normalize_emotion x = Some "sad" -> occurs "sad" x) /\
  (Aggregator.normalize_emotion x = Some "happy" -> occurs "happy" x /\ ~ occurs "sad" x).
Proof.
  unfold Aggregator.normalize_emotion.
  destruct (PyStr.contains x "sad") eqn:Hs;
    [apply contains_occurs in Hs | apply contains_false in Hs];
    (destruct (PyStr.contains x "happy") eqn:Hh;
     [apply contains_occurs in Hh | apply contains_false in Hh]);
    repeat split; intros; try reflexivity; try contradiction; try congruence;
    try assumption.
Qed.

(** ** The aggregator: when the correctness coercion raises *)

Lemma forallb_unique_Q (f : Q -> bool) (l : list Q) :
  (forall x y, (x == y)%Q -> f x = f y) ->
  forallb f (Pandas.unique_Q l) = forallb f l.
Proof.
  intros Hf.
  assert (Hfilter : forall x u, f x = true ->
            forallb f (filter (fun y => Qeq_bool x y = false) u) = forallb f u).
  { intros x u Hx. induction u as [|y u IH]; [reflexivity|].
    rewrite filter_cons. destruct (decide _) as [Hy|Hy]; simpl.
    - now rewrite IH.
    - apply not_false_iff_true, Qeq_bool_iff in Hy.
      rewrite <- (Hf x y Hy), Hx. simpl. exact IH. }
  induction l as [|x r IH]; [reflexivity|]. simpl.
  destruct (f x) eqn:Hx; [|reflexivity]. simpl.
  now rewrite Hfilter, IH.
Qed.

Lemma is_0_or_1_iff (x : Q) : Aggregator.is_0_or_1 x = true <-> (x == 0 \/ x == 1)%Q.
Proof. unfold Aggregator.is_0_or_1. now rewrite orb_true_iff, !Qeq_bool_iff. Qed.

Lemma is_0_or_1_compat (x y : Q) :
  (x == y)%Q -> Aggregator.is_0_or_1 x = Aggregator.is_0_or_1 y.
Proof.
  intros H. apply eq_true_iff_eq. rewrite !is_0_or_1_iff. now rewrite H.
Qed.

(** The test of the numeric branch. *)
Lemma numeric_test_iff (rt : list (option Q)) :
  existsb Aggregator.notna rt
    && forallb Aggregator.is_0_or_1 (Pandas.unique_Q (Pandas.dropna rt)) = true <->
  (exists x, Some x ∈ rt) /\ (forall x, Some x ∈ rt -> (x == 0 \/ x == 1)%Q).
Proof.
  rewrite andb_true_iff, (forallb_unique_Q _ _ is_0_or_1_compat).
  rewrite existsb_exists, forallb_forall. split.
  - intros [[o [Hin Ho]] Hall]. split.
    + destruct o as [x|]; [|discriminate]. exists x. now apply list_elem_of_In.
    + intros x Hx. apply is_0_or_1_iff, Hall, list_elem_of_In, elem_of_dropna, Hx.
  - intros [[x Hx] Hall]. split.
    + exists (Some x). split; [now apply list_elem_of_In | reflexivity].
    + intros y Hy. apply is_0_or_1_iff, Hall, elem_of_dropna, list_elem_of_In, Hy.
Qed.

Lemma astype_int_cases (rt : list (option Q)) :
  (None ∈ rt /\ Pandas.astype_int rt = Raised IntCastingNaNError) \/
  ((None ∉ rt) /\ exists ints, Pandas.astype_int rt = Done ints /\ length ints = length rt).
Proof.
  unfold Pandas.astype_int.
  destruct (forallb _ rt) eqn:E.
  - right. rewrite forallb_forall in E. split.
    + intros H. apply list_elem_of_In, E in H. discriminate.
    + eexists. split; [reflexivity|]. rewrite length_map.
      rewrite <- (length_map Some). f_equal. symmetry. apply Forall_Some_map.
      apply list.Forall_forall. intros o Ho Hn. subst o.
      apply list_elem_of_In, E in Ho. discriminate.
  - left. split; [|reflexivity].
    induction rt as [|[x|] r IH]; [discriminate| |apply list_elem_of_here].
    apply list_elem_of_further, IH. exact E.
Qed.

Lemma astype_str_length (T : Pandas.numtext) (s : Pandas.series) :
  length (Pandas.astype_str T s) = Pandas.series_len s.
Proof. destruct s; simpl; apply length_map. Qed.

(** X22. The correctness coercion raises in one situation only, and
    then IntCastingNaNError: the column is not boolean, it has at least
    one numeric value, all its numeric values are 0 or 1, and a value is
    missing or not numeric.  When it returns booleans, there is one for
    each row of the column. *)
Theorem coerce_outcomes (T : Pandas.numtext) (s : Pandas.series) :
  (forall e, Aggregator.coerce_correct_series T (Some s) = Raised e <->
     e = IntCastingNaNError /\
     (forall l, s <> Pandas.BoolS l) /\
     None ∈ Pandas.to_numeric T s /\
     (exists x, Some x ∈ Pandas.to_numeric T s) /\
     (forall x, Some x ∈ Pandas.to_numeric T s -> (x == 0 \/ x == 1)%Q)) /\
  (forall cb, Aggregator.coerce_correct_series T (Some s) = Done (Some cb) ->
     length cb = Pandas.series_len s) /\
  Aggregator.coerce_correct_series T None = Done None.
Proof.
  assert (Hbody : (forall l, s <> Pandas.BoolS l) ->
    Aggregator.coerce_correct_series T (Some s) =
    if existsb Aggregator.notna (Pandas.to_numeric T s)
       && forallb Aggregator.is_0_or_1
            (Pandas.unique_Q (Pandas.dropna (Pandas.to_numeric T s)))
    then bind (Pandas.astype_int (Pandas.to_numeric T s))
           (fun ints => Done (Some (Pandas.astype_bool ints)))
    else
      if forallb (fun v => String.eqb v "true" || String.eqb v "false")
           (remove_dups (map Aggregator._lower (Pandas.astype_str T s)))
      then Done (Some (map (fun v => String.eqb v "true")
                         (map Aggregator._lower (Pandas.astype_str T s))))
      else Done None).
  { intros Hnb. destruct s as [l| | |]; [now contradiction (Hnb l)| | |]; reflexivity. }
  split; [|split; [|reflexivity]].
  - intros e. split.
    + intros H. destruct s as [l|l|l|l]; [discriminate| | |];
        (rewrite Hbody in H by discriminate;
         match type of H with
         | (if ?b then _ else _) = _ => destruct b eqn:Hb
         end;
         [ apply numeric_test_iff in Hb as [Hex Hall];
           match type of H with
           | bind (Pandas.astype_int ?rt) _ = _ =>
               destruct (astype_int_cases rt) as [[Hn Hr] | [Hn [ints [Hr _]]]];
               rewrite Hr in H; simpl in H
           end;
           [ injection H as <-; repeat split; try assumption; discriminate
           | discriminate ]
         | match type of H with
           | (if ?b then _ else _) = _ => destruct b; discriminate
           end ]).
    + intros [-> [Hnb [Hn [Hex Hall]]]].
      apply coerce_numeric_missing_raises; try assumption.
      apply numeric_test_iff. now split.
  - intros cb H. destruct s as [l|l|l|l]; [now injection H as <-| | |];
      (rewrite Hbody in H by discriminate;
       match type of H with
       | (if ?b then _ else _) = _ => destruct b
       end;
       [ match type of H with
         | bind (Pandas.astype_int ?rt) _ = _ =>
             destruct (astype_int_cases rt) as [[Hn Hr] | [Hn [ints [Hr Hlen]]]];
             rewrite Hr in H; simpl in H; [discriminate|];
             injection H as <-; unfold Pandas.astype_bool;
             rewrite length_map, Hlen; apply to_numeric_length
         end
       | match type of H with
         | (if ?b then _ else _) = _ => destruct b; [|discriminate]
         end;
         injection H as <-; rewrite 2!length_map;
         rewrite <- (astype_str_length T); reflexivity ]).
Qed.

(** ** The aggregator: the batch *)

Section Batch.
Import Pandas Aggregator.
Variable T : numtext.

Lemma summarise_name (filename : string) (df : frame) (r : frame * summary_row) :
  summarise T filename df = Done r ->
  database_name (snd r) = fst (Classifier.splitext filename).
Proof.
  unfold summarise. destruct (correct_bool_of T df) as [cb|e]; simpl; [|discriminate].
  destruct (condition_columns T df) as [[dc|] [ec|]]; intros [= <-]; reflexivity.
Qed.

Lemma process_file_name (filename : string) (df cleaned : frame) (row : summary_row) :
  process_file T filename df = Done (Processed cleaned row) ->
  database_name row = fst (Classifier.splitext filename).
Proof.
  unfold process_file. destruct (remove_rt_outliers T (prune df)) as [kept|]; [|discriminate].
  destruct (summarise T filename kept) as [r|e] eqn:E; simpl; [|discriminate].
  intros [= _ <-]. now apply summarise_name in E.
Qed.

(** X23. The batch is a left-to-right composition: processing a
    listing in two parts, the second from the state the first one left,
    is processing it whole, an exception in the first part ending the
    run; and the entries whose name does not end in .csv play no role. *)
Theorem batch_compose (l1 l2 files : list (string * frame)) (st : state) :
  batch T (l1 ++ l2) st = bind (batch T l1 st) (batch T l2) /\
  batch T files st
  = batch T (filter (fun f => PyStr.endswith (fst f) ".csv" = true) files) st.
Proof.
  split.
  - revert st. induction l1 as [|[filename df] r IH]; intros st; simpl; [reflexivity|].
    destruct (PyStr.endswith filename ".csv"); [|apply IH].
    destruct (process_file T filename df) as [[|cleaned row]|e]; simpl;
      [apply IH | apply IH | reflexivity].
  - revert st. induction files as [|[filename df] r IH]; intros st; [reflexivity|].
    rewrite filter_cons. simpl fst.
    destruct (decide _) as [Hc|Hc].
    + simpl. rewrite Hc.
      destruct (process_file T filename df) as [[|cleaned row]|e]; simpl;
        [apply IH | apply IH | reflexivity].
    + simpl. apply not_true_is_false in Hc. rewrite Hc. apply IH.
Qed.

(** X24. After a batch that ends without exception, the summary rows
    and the written files correspond one to one and in order: there is a
    list of processed names, taken in order from the .csv names of the
    listing, such that the files written are those names under the
    results folder and the rows added carry those names without their
    extension. *)
Theorem batch_rows_match_files (files : list (string * frame)) (st st' : state) :
  batch T files st = Done st' ->
  exists names : list string,
    names `sublist_of` filter (fun n => PyStr.endswith n ".csv" = true) (map fst files) /\
    map fst (written st') = map fst (written st) ++ map file_path names /\
    map database_name (summary_rows st')
    = map database_name (summary_rows st)
      ++ map (fun n => fst (Classifier.splitext n)) names.
Proof.
  revert st. induction files as [|[filename df] r IH]; intros st H.
  - injection H as <-. exists []. simpl. rewrite !app_nil_r. repeat split. constructor.
  - simpl in H. simpl map. rewrite filter_cons.
    destruct (PyStr.endswith filename ".csv") eqn:Hc.
    + destruct (decide _) as [_|Hn]; [|congruence].
      destruct (process_file T filename df) as [[|cleaned row]|e] eqn:Hp; simpl in H;
        [| |discriminate].
      * destruct (IH st H) as [names [Hs [Hw Hr]]].
        exists names. split; [now apply sublist_cons | now split].
      * destruct (IH _ H) as [names [Hs [Hw Hr]]]. simpl in Hw, Hr.
        exists (filename :: names). split; [now apply sublist_skip|].
        rewrite Hw, Hr, !map_app. simpl.
        rewrite (process_file_name _ _ _ _ Hp), <- !app_assoc. now split.
    + destruct (decide _) as [Hy|_]; [congruence|].
      apply IH, H.
Qed.

End Batch.

Lemma batch_rows_match_files_witness :
  exists names : list string,
    names `sublist_of` filter (fun n => PyStr.endswith n ".csv" = true)
                         (map fst [("p01.csv", half_missing);
                                   ("readme.txt", []);
                                   ("p02.csv", no_rt_no_conditions)]) /\
    map fst (Aggregator.written
               {| Aggregator.summary_rows := [Aggregator.nan_row "p02"];
                  Aggregator.written := [("../1. Raw Data/p02.csv", no_rt_no_conditions)] |})
    = map fst (Aggregator.written Aggregator.initial) ++ map Aggregator.file_path names /\
    map Aggregator.database_name
      (Aggregator.summary_rows
         {| Aggregator.summary_rows := [Aggregator.nan_row "p02"];
            Aggregator.written := [("../1. Raw Data/p02.csv", no_rt_no_conditions)] |})
    = map Aggregator.database_name (Aggregator.summary_rows Aggregator.initial)
      ++ map (fun n => fst (Classifier.splitext n)) names.
Proof.
  apply (batch_rows_match_files plain_text
           [("p01.csv", half_missing); ("readme.txt", []); ("p02.csv", no_rt_no_conditions)]
           Aggregator.initial).
  vm_compute. reflexivity.
Defined.

(** ** The aggregator: inferring the condition columns *)

Lemma existsb_remove_dups (f : string -> bool) (l : list string) :
  existsb f (remove_dups l) = existsb f l.
Proof.
  apply eq_true_iff_eq. rewrite !existsb_exists.
  split; intros [x [Hin Hx]]; exists x; (split; [|exact Hx]);
    apply list_elem_of_In; apply list_elem_of_In in Hin.
  - exact (proj1 (elem_of_remove_dups l x) Hin).
  - exact (proj2 (elem_of_remove_dups l x) Hin).
Qed.

Lemma occurs_non_ai (v : string) :
  occurs "non-ai" v \/ occurs "nonai" v -> occurs "ai" v.
Proof.
  intros [[a [b ->]] | [a [b ->]]].
  - exists (a +:+ "non-"), b. rewrite append_assoc. reflexivity.
  - exists (a +:+ "non"), b. rewrite append_assoc. reflexivity.
Qed.

Lemma source_test (vals : list string) :
  Aggregator.any_contains "ai" vals
  && existsb (fun v => PyStr.contains v "non-ai" || PyStr.contains v "nonai") vals
  = existsb (fun v => PyStr.contains v "non-ai" || PyStr.contains v "nonai") vals.
Proof.
  destruct (existsb (fun v => PyStr.contains v "non-ai" || PyStr.contains v "nonai") vals)
    eqn:E; [|apply andb_false_r].
  rewrite andb_true_r. apply existsb_exists in E as [v [Hin Hv]].
  unfold Aggregator.any_contains. apply existsb_exists. exists v. split; [exact Hin|].
  apply contains_occurs, occurs_non_ai.
  apply orb_true_iff in Hv as [Hv|Hv]; apply contains_occurs in Hv; auto.
Qed.

Lemma infer_fold (T : Pandas.numtext) (df : Pandas.frame) (d0 e0 : option string) :
  fold_left
    (fun acc cs =>
       let '(database_col, emotion_col) := acc in
       let vals := remove_dups (map Aggregator._lower (Pandas.dropna_astype_str T (snd cs))) in
       let database_col :=
         match database_col with
         | None =>
             if Aggregator.any_contains "ai" vals
                && existsb (fun v => PyStr.contains v "non-ai" || PyStr.contains v "nonai") vals
             then Some (fst cs) else None
         | Some c => Some c
         end in
       let emotion_col :=
         match emotion_col with
         | None =>
             if Aggregator.any_contains "happy" vals && Aggregator.any_contains "sad" vals
             then Some (fst cs) else None
         | Some c => Some c
         end in
       (database_col, emotion_col))
    (filter (fun cs => Pandas.is_object (snd cs) = true) df) (d0, e0)
  = (Aggregator.orelse d0 (first_object_column (names_source T) df),
     Aggregator.orelse e0 (first_object_column (names_emotion T) df)).
Proof.
  revert d0 e0. induction df as [|[c s] r IH]; intros d0 e0.
  - simpl. destruct d0, e0; reflexivity.
  - rewrite filter_cons. simpl snd. simpl first_object_column.
    destruct (decide (Pandas.is_object s = true)) as [Ho|Ho].
    + rewrite Ho. simpl andb. simpl fold_left. rewrite IH. simpl fst.
      rewrite source_test. unfold Aggregator.any_contains.
      rewrite !existsb_remove_dups.
      fold (lowered_values T s). fold (names_source T s). fold (names_emotion T s).
      destruct d0, e0, (names_source T s), (names_emotion T s); reflexivity.
    + apply not_true_is_false in Ho. rewrite Ho. simpl andb. apply IH.
Qed.

(** X25. Inferring the condition columns from the values is two
    independent searches over the object columns in column order: the
    source column is the first one with a value that contains non-ai or
    nonai (the test for a value containing ai adds nothing, such a value
    contains ai already), the emotion column the first one with a value
    containing happy and a value containing sad.  Columns that are not
    of object dtype are never chosen. *)
Theorem infer_condition_columns_spec (T : Pandas.numtext) (df : Pandas.frame) :
  Aggregator.infer_condition_columns T df =
  (first_object_column (names_source T) df, first_object_column (names_emotion T) df).
Proof.
  unfold Aggregator.infer_condition_columns. cbv zeta. rewrite infer_fold. reflexivity.
Qed.

(** ** The aggregator: files without a reaction-time column *)

(** X27. A session file without a reaction-time column is never
    skipped: unless the correctness coercion raises, it is written back
    with all its rows (only the pruned columns are gone), exactly one
    summary row is appended for it, and the four mean reaction times of
    that row are NaN. *)
Theorem no_rt_file_kept (T : Pandas.numtext) (filename : string) (df : Pandas.frame)
    (rest : list (string * Pandas.frame)) (st : Aggregator.state)
    (cb : option (list bool)) :
  PyStr.endswith filename ".csv" = true ->
  Pandas.get_col "rt" df = None ->
  Aggregator.correct_bool_of T (Aggregator.prune df) = Done cb ->
  exists row,
    Aggregator.batch T ((filename, df) :: rest) st =
      Aggregator.batch T rest
        {| Aggregator.summary_rows := Aggregator.summary_rows st ++ [row];
           Aggregator.written :=
             Aggregator.written st ++ [(Aggregator.file_path filename, Aggregator.prune df)] |} /\
    Aggregator.ai_sad_avg_rt row = None /\ Aggregator.ai_happy_avg_rt row = None /\
    Aggregator.non_ai_sad_avg_rt row = None /\ Aggregator.non_ai_happy_avg_rt row = None.
Proof.
  intros Hcsv Hrt Hcb.
  destruct (no_rt_file_processed T filename df cb Hrt Hcb) as [row [Hp Havg]].
  exists row. split; [|exact Havg].
  simpl. now rewrite Hcsv, Hp.
Qed.

Lemma no_rt_file_kept_witness :
  exists row,
    Aggregator.batch plain_text [("p02.csv", no_rt_no_conditions)] Aggregator.initial =
      Aggregator.batch plain_text []
        {| Aggregator.summary_rows := Aggregator.summary_rows Aggregator.initial ++ [row];
           Aggregator.written :=
             Aggregator.written Aggregator.initial
             ++ [(Aggregator.file_path "p02.csv", Aggregator.prune no_rt_no_conditions)] |} /\
    Aggregator.ai_sad_avg_rt row = None /\ Aggregator.ai_happy_avg_rt row = None /\
    Aggregator.non_ai_sad_avg_rt row = None /\ Aggregator.non_ai_happy_avg_rt row = None.
Proof.
  apply (no_rt_file_kept plain_text "p02.csv" no_rt_no_conditions [] Aggregator.initial
           (Some [true; false])).
  - reflexivity.
  - reflexivity.
  - vm_compute. reflexivity.
Defined.
